(** * sentimentbot: scoring, categorisation and reply composition

    A shallow embedding of the sentiment engine of the Bluesky reply bot
    (src/index.ts and its sibling revisions) together with the properties
    the specification states about it.

    Scores are JavaScript numbers.  Every finite double is a rational, and
    [<=], [<], [>=], [===] on finite doubles agree with the order of the
    rationals they denote, so a finite score is a [Q] and the decimal
    literals of the source are the rationals they spell.  The two infinities
    only occur as table bounds and get their own constructors.

    Arithmetic is another matter: [+], [*] and [/] round their exact result
    to the nearest double.  [JS.round53] is that rounding, and the sum, the
    quotient and the product the engine computes are written with it; a
    value that went through the arithmetic is a [JS.number], compared with
    the double a literal denotes. *)

From Stdlib Require Import ZArith QArith Qround Qabs.
From Stdlib Require Import Strings.String Strings.Ascii.
From Stdlib Require Import Lists.List.
From Stdlib Require Import Bool Lia Lqa.
Import ListNotations.

Local Open Scope string_scope.
Local Open Scope Q_scope.

(** ** Fragments of the JavaScript runtime the engine relies on *)
Module JS.

(** A number literal of a threshold table. *)
Inductive number : Type :=
  | NegInfinity : number
  | Num : Q -> number
  | Infinity : number.

(** [score <= threshold] for a finite [score]. *)
Definition le (score : Q) (threshold : number) : bool :=
  match threshold with
  | NegInfinity => false
  | Num t => Qle_bool score t
  | Infinity => true
  end.

(** [a < b], [a >= b] and [a === b] on finite numbers. *)
Definition lt (a b : Q) : bool := negb (Qle_bool b a).
Definition ge (a b : Q) : bool := Qle_bool b a.
Definition seq (a b : Q) : bool := Qeq_bool a b.

(** [x ?? d] *)
Definition nullish {A : Type} (x : option A) (d : A) : A :=
  match x with
  | Some v => v
  | None => d
  end.

(** [x?.[1]] on a pair *)
Definition opt_snd {A B : Type} (x : option (A * B)) : option B :=
  match x with
  | Some (_, b) => Some b
  | None => None
  end.

(** A value that reaches a template literal: a string, an array of
    strings, or [undefined]. *)
Inductive value : Type :=
  | Undefined : value
  | Str : string -> value
  | Arr : list string -> value.

(** [Array.prototype.join] on an array of strings. *)
Fixpoint join (sep : string) (items : list string) : string :=
  match items with
  | [] => ""
  | [s] => s
  | s :: rest => s ++ sep ++ join sep rest
  end.

(** The string a template literal interpolates for [v]; an array goes
    through [Array.prototype.toString], which joins with a comma. *)
Definition ToString (v : value) : string :=
  match v with
  | Undefined => "undefined"
  | Str s => s
  | Arr items => join "," items
  end.

(** [array[i]]: [undefined] outside [0 .. length-1]. *)
Definition index (array : list string) (i : Z) : value :=
  if (i <? 0)%Z then Undefined
  else match nth_error array (Z.to_nat i) with
       | Some s => Str s
       | None => Undefined
       end.

(** [Math.floor] *)
Definition Math_floor (x : Q) : Z := Qfloor x.

(** [array.length] as a number *)
Definition length_of (array : list string) : Q :=
  inject_Z (Z.of_nat (List.length array)).

(** *** Arithmetic on doubles

    A finite double is a whole multiple of [2^-1074] whose magnitude, on
    the grid of its binade, has at most 53 bits.  An operation rounds its
    exact result to the nearest such value, a tie going to the even one,
    and overflows to an infinity from [2^1024] on. *)

(** How many times [2^-1074] goes into one. *)
Definition units : Q := inject_Z (2 ^ 1074).

(** The spacing, in units, of the doubles around a magnitude: one unit
    among the subnormals and up to [2^53] units, doubling with each binade
    above. *)
Definition grid (magnitude : Q) : Z :=
  2 ^ Z.max (Z.log2 (Qfloor (magnitude * units)) - 52) 0.

(** The nearest integer, the even one of two that are equally near. *)
Definition nearest_even (x : Q) : Z :=
  let f := Qfloor x in
  match Qcompare (x - inject_Z f) (1 # 2) with
  | Lt => f
  | Gt => (f + 1)%Z
  | Eq => if Z.even f then f else (f + 1)%Z
  end.

Definition round_magnitude (magnitude : Q) : Q :=
  let g := grid magnitude in
  inject_Z (g * nearest_even (magnitude * units / inject_Z g)) / units.

(** Round to nearest, ties to even, before the overflow test; the result
    in lowest terms. *)
Definition round53 (q : Q) : Q :=
  Qred (if Qle_bool 0 q then round_magnitude q else - round_magnitude (- q)).

(** A rounded result of magnitude [2^1024] or more is an infinity. *)
Definition overflow (q : Q) : number :=
  if Qle_bool (inject_Z (2 ^ 1024)) q then Infinity
  else if Qle_bool q (- inject_Z (2 ^ 1024)) then NegInfinity
  else Num q.

(** [sum + score] for a finite [score], which is read as the double
    nearest to it; an infinite [sum] stays what it is. *)
Definition plus (sum : number) (score : Q) : number :=
  match sum with
  | Num s => overflow (round53 (s + round53 score))
  | _ => sum
  end.

(** [sum / count] for a [count] of [1] or more, a whole number that is a
    double as it stands. *)
Definition over (sum : number) (count : nat) : number :=
  match sum with
  | Num s => overflow (round53 (s / inject_Z (Z.of_nat count)))
  | _ => sum
  end.

(** [r * length] for a finite [r], read as the double nearest to it, and
    the length of an array. *)
Definition times (r length : Q) : number :=
  overflow (round53 (round53 r * length)).

(** [array[Math.floor(x)]]; an infinity is the floor of itself and no
    index of an array. *)
Definition at_floor (array : list string) (x : number) : value :=
  match x with
  | Num q => index array (Math_floor q)
  | _ => Undefined
  end.

(** [score <= threshold] where the score comes out of the arithmetic and
    the threshold is a literal, which denotes the double nearest to what
    it spells. *)
Definition le_number (score threshold : number) : bool :=
  match score, threshold with
  | NegInfinity, _ => true
  | _, Infinity => true
  | Infinity, _ => false
  | Num _, NegInfinity => false
  | Num s, Num t => Qle_bool s (round53 t)
  end.

(** The largest double below [1]: the most [Math.random] returns. *)
Definition below_one : Q := 1 - (1 # 9007199254740992).

(** *** Properties every object inherits

    The own property names of [Object.prototype]; [object[key]] finds them
    on an object literal that has no own property [key]. *)
Definition Object_prototype : list string :=
  [ "constructor"; "__defineGetter__"; "__defineSetter__"; "hasOwnProperty";
    "__lookupGetter__"; "__lookupSetter__"; "isPrototypeOf";
    "propertyIsEnumerable"; "toString"; "valueOf"; "__proto__";
    "toLocaleString" ].

Definition inherited (key : string) : bool :=
  existsb (String.eqb key) Object_prototype.

(** *** Decimal digits *)

Definition digit (d : Z) : ascii := ascii_of_nat (48 + Z.to_nat d).

Fixpoint digits_fuel (fuel : nat) (n : Z) : string :=
  match fuel with
  | O => ""
  | S fuel' =>
      if (n <? 10)%Z then String (digit n) ""
      else digits_fuel fuel' (n / 10) ++ String (digit (n mod 10)) ""
  end.

(** The decimal representation of a non-negative integer ("0" for 0).
    A number below [2 ^ fuel] has at most [fuel] decimal digits. *)
Definition decimal (n : Z) : string :=
  digits_fuel (S (Z.to_nat (Z.log2 n))) n.

Fixpoint repeat0 (k : nat) : string :=
  match k with
  | O => ""
  | S k' => String "0" (repeat0 k')
  end.

Fixpoint take (k : nat) (s : string) : string :=
  match k, s with
  | S k', String c s' => String c (take k' s')
  | _, _ => ""
  end.

Fixpoint drop (k : nat) (s : string) : string :=
  match k, s with
  | S k', String _ s' => drop k' s'
  | _, _ => s
  end.

Section ToFixed.

(** [Number::toString], which [toFixed] falls back to from 10^21 on
    (exponent notation); it belongs to the engine and is left open. *)
Variable NumberToString : Q -> string.

(** [Number.prototype.toFixed(f)] on a finite number, step by step as
    in ECMA-262: take the sign off, pick the integer [n] for which
    [n / 10^f - x] is closest to zero (the larger one on a tie), print
    its digits, left-pad with zeros to [f + 1] digits and put the point
    before the last [f]. *)
Definition toFixed (x : Q) (f : nat) : string :=
  let s := if lt x 0 then "-" else "" in
  let x := if lt x 0 then - x else x in
  let m :=
    if ge x (inject_Z (10 ^ 21)) then NumberToString x
    else
      let n := Qfloor (x * inject_Z (10 ^ Z.of_nat f) + (1 # 2)) in
      let m := if (n =? 0)%Z then "0" else decimal n in
      match f with
      | O => m
      | _ =>
          let k := String.length m in
          let m := if (k <=? f)%nat then repeat0 (f + 1 - k) ++ m else m in
          let k := if (k <=? f)%nat then (f + 1)%nat else k in
          take (k - f) m ++ "." ++ drop (k - f) m
      end
  in
  s ++ m.

End ToFixed.

(** *** [str.replace(/\.?0+$/, '')] *)

(** [s] is one or more ["0"] and nothing else: [0+$] anchored at the
    start of [s]. *)
Fixpoint zeros_to_end (s : string) : bool :=
  match s with
  | "" => false
  | String c "" => Ascii.eqb c "0"
  | String c rest => Ascii.eqb c "0" && zeros_to_end rest
  end.

(** The pattern matches when started at the head of [s]: first with the
    optional point taken, then, on backtracking, without it. *)
Definition trailing_zeros_at (s : string) : bool :=
  match s with
  | String c rest =>
      if Ascii.eqb c "." then zeros_to_end rest || zeros_to_end s
      else zeros_to_end s
  | "" => zeros_to_end s
  end.

(** The leftmost start position that matches wins; the match runs to the
    end of the string (the pattern ends in [$], no [m] flag) and is
    replaced by the empty string.  Without a match the string is
    unchanged. *)
Fixpoint replace_trailing_zeros (s : string) : string :=
  if trailing_zeros_at s then ""
  else match s with
       | "" => ""
       | String c rest => String c (replace_trailing_zeros rest)
       end.

(** *** [`${n}`] for a number *)

Section Interpolation.

Variable NumberToString : Q -> string.

(** A template literal prints an integer below 10^21 in magnitude as its
    decimal digits, with a minus sign when it is negative; any other
    number is left to [Number::toString]. *)
Definition show_number (n : Q) : string :=
  let z := Qfloor n in
  if Qeq_bool n (inject_Z z) && (Z.abs z <? 10 ^ 21)%Z
  then (if (z <? 0)%Z then "-" else "") ++ decimal (Z.abs z)
  else NumberToString n.

End Interpolation.

End JS.

(** ** The entropy the composer consumes

    [Math.random()] is modelled by the sequence of values it is going to
    return; a computation that draws from it passes the rest along. *)
Module Random.

Definition source : Type := nat -> Q.

Definition M (A : Type) : Type := source -> A * source.

Definition ret {A : Type} (a : A) : M A := fun src => (a, src).

Definition bind {A B : Type} (m : M A) (k : A -> M B) : M B :=
  fun src => let (a, src') := m src in k a src'.

Definition Math_random : M Q :=
  fun src => (src O, fun i => src (S i)).

(** A source every draw of which is [0], hence every index [0]. *)
Definition always_zero (src : source) : Prop := forall i, src i == 0.

(** What [Math.random] guarantees: every draw lies in [0, 1), the doubles
    of which end at [1 - 2^-53]. *)
Definition in_unit_interval (src : source) : Prop :=
  forall i, 0 <= src i /\ src i <= JS.below_one.

End Random.

Notation "x <- m ;; k" := (Random.bind m (fun x => k))
  (at level 61, m at next level, right associativity).

(** A threshold table: [(upper bound, label)] rows, scanned front to back. *)
Definition CategoryTable : Type := list (JS.number * string).

(** [TABLE.find(([threshold]) => score <= threshold)?.[1] ?? 'neutral']:
    the body every table-driven classifier of the repository shares. *)
Definition scan (table : CategoryTable) (score : Q) : option (JS.number * string) :=
  find (fun row => JS.le score (fst row)) table.

Definition classify (table : CategoryTable) (score : Q) : string :=
  JS.nullish (JS.opt_snd (scan table score)) "neutral".

(** The same body on a score that comes out of the arithmetic. *)
Definition scan_number (table : CategoryTable) (score : JS.number)
  : option (JS.number * string) :=
  find (fun row => JS.le_number score (fst row)) table.

Definition classify_number (table : CategoryTable) (score : JS.number) : string :=
  JS.nullish (JS.opt_snd (scan_number table score)) "neutral".

(** *** What the specification asks of a threshold table *)

(** [a < b] on table bounds. *)
Definition bound_ltb (a b : JS.number) : bool :=
  match a, b with
  | JS.NegInfinity, JS.NegInfinity => false
  | JS.NegInfinity, _ => true
  | JS.Num x, JS.Num y => JS.lt x y
  | JS.Num _, JS.Infinity => true
  | _, _ => false
  end.

(** Each bound is strictly below the next one. *)
Fixpoint increasing (bounds : list JS.number) : bool :=
  match bounds with
  | a :: (b :: _) as rest => bound_ltb a b && increasing rest
  | _ => true
  end.

Definition strictly_increasing (table : CategoryTable) : bool :=
  increasing (map fst table).

(** The last row is unbounded. *)
Definition ends_unbounded (table : CategoryTable) : bool :=
  match last (map fst table) JS.NegInfinity with
  | JS.Infinity => true
  | _ => false
  end.

(** ** The five-category composer

    [generateSentimentResponse] of both revisions of src/index.ts and of
    the earliest revision: one text, which the revisions share to the
    letter except for the five emoji. *)
Module FiveWay.

Record Response : Type :=
  { message : string; suggestion : string; emoji : string }.

(** What [responses[sentiment]] evaluates to: an entry of the literal,
    a property [Object.prototype] hands down, or [undefined]. *)
Inductive looked_up : Type :=
  | Own : Response -> looked_up
  | Inherited : looked_up
  | Missing : looked_up.

Fixpoint own_property (key : string) (object : list (string * Response)) : option Response :=
  match object with
  | [] => None
  | (k, v) :: rest => if String.eqb k key then Some v else own_property key rest
  end.

(** [responses[sentiment]] *)
Definition property (key : string) (object : list (string * Response)) : looked_up :=
  match own_property key object with
  | Some r => Own r
  | None => if JS.inherited key then Inherited else Missing
  end.

Section Composer.

Variable NumberToString : Q -> string.
Variables very_mean_emoji mean_emoji neutral_emoji nice_emoji very_nice_emoji : string.

Definition responses (postCount : Q) : list (string * Response) :=
  [
    ("very mean",
     {| message := "Based on your recent " ++ JS.show_number NumberToString postCount
                   ++ " posts, your communication tends to be quite negative. Consider how your words might be received by others.";
        suggestion := "Adding some positive comments or constructive feedback could help balance your tone.";
        emoji := very_mean_emoji |});
    ("mean",
     {| message := "After analyzing your last " ++ JS.show_number NumberToString postCount
                   ++ " posts, we've noticed a slightly negative tone in your communication.";
        suggestion := "A few positive words can go a long way in how your messages are perceived.";
        emoji := mean_emoji |});
    ("neutral",
     {| message := "Your recent " ++ JS.show_number NumberToString postCount
                   ++ " posts show a balanced communication style - neither overly positive nor negative.";
        suggestion := "Your measured approach to discussions is appreciated in online communities.";
        emoji := neutral_emoji |});
    ("nice",
     {| message := "Analysis of your " ++ JS.show_number NumberToString postCount
                   ++ " recent posts shows you tend to be positive in your communications.";
        suggestion := "Your constructive approach helps create a welcoming environment.";
        emoji := nice_emoji |});
    ("very nice",
     {| message := "Wow! Your last " ++ JS.show_number NumberToString postCount
                   ++ " posts show consistently positive and supportive communication.";
        suggestion := "Your positive attitude makes the community a better place for everyone.";
        emoji := very_nice_emoji |})
  ].

(** Destructuring [undefined] throws; that is [None].  Destructuring an
    inherited property, a function or [Object.prototype] itself, binds
    [message], [suggestion] and [emoji] to [undefined], and the template
    prints each as such. *)
Definition generateSentimentResponse (username sentiment : string) (postCount : Q)
  : option string :=
  match property sentiment (responses postCount) with
  | Own r =>
      Some (emoji r ++ " Hey @" ++ username ++ "! " ++ message r ++ " " ++ suggestion r)
  | Inherited =>
      Some (JS.ToString JS.Undefined ++ " Hey @" ++ username ++ "! "
            ++ JS.ToString JS.Undefined ++ " " ++ JS.ToString JS.Undefined)
  | Missing => None
  end.

End Composer.

End FiveWay.

(** ** src/index.ts, first revision (lines 1-167) *)
Module Index1.

Definition SENTIMENT_CATEGORIES : CategoryTable :=
  [ (JS.Num (-3),    "very mean");
    (JS.Num (-0.25), "mean");
    (JS.Num (-0.1),  "neutral");
    (JS.Num 0.1,     "nice");
    (JS.Num 0.25,    "very nice") ].

Definition analyzeSentiment (score : Q) : string :=
  classify SENTIMENT_CATEGORIES score.

(** [analyzeSentiment] on the score as [analyzeSentimentScore] returns it. *)
Definition analyzeSentiment_number (score : JS.number) : string :=
  classify_number SENTIMENT_CATEGORIES score.

Definition generateSentimentResponse (NumberToString : Q -> string)
  (username sentiment : string) (postCount : Q) : option string :=
  FiveWay.generateSentimentResponse NumberToString
    "😡" "🙁" "😐" "🙂" "🥰"
    username sentiment postCount.

End Index1.

(** ** src/index.ts, second revision (lines 168-314) *)
Module Index2.

Definition SENTIMENT_CATEGORIES : CategoryTable :=
  [ (JS.NegInfinity, "very mean");
    (JS.Num (-0.25), "mean");
    (JS.Num (-0.1),  "neutral");
    (JS.Num 0.1,     "nice");
    (JS.Num 0.25,    "very nice") ].

Definition analyzeSentiment (score : Q) : string :=
  classify SENTIMENT_CATEGORIES score.

(** [analyzeSentiment] on the score as [analyzeSentimentScore] returns it. *)
Definition analyzeSentiment_number (score : JS.number) : string :=
  classify_number SENTIMENT_CATEGORIES score.

Definition generateSentimentResponse (NumberToString : Q -> string)
  (username sentiment : string) (postCount : Q) : option string :=
  FiveWay.generateSentimentResponse NumberToString
    "ðŸ˜¡" "ðŸ™" "ðŸ˜" "ðŸ™‚" "ðŸ˜„"
    username sentiment postCount.

End Index2.

(** ** The aggregate score

    [analyzeSentimentScore] has the same text in src/index.ts (both
    revisions) and in both revisions of the sentiment module. *)
Module Score.

Section Analyzer.

(** The [sentiment] package: [sentimentAnalyzer.analyze(text, options)
    .comparative]. *)
Variable Options : Type.
Variable comparative : string -> option Options -> Q.

Definition analyzeSentimentScore (texts : list string) (options : option Options)
  : JS.number :=
  if (0 <? List.length texts)%nat
  then JS.over (fold_left (fun sum score => JS.plus sum score)
                          (map (fun text => comparative text options) texts) (JS.Num 0))
               (List.length texts)
  else JS.Num 0.

End Analyzer.



End Score.

(** ** The earliest revision: score and category in one function *)
Module Earliest.

Definition SENTIMENT_CATEGORIES : CategoryTable :=
  [ (JS.Num (-0.5), "very mean");
    (JS.Num 0,      "mean");
    (JS.Num 0.1,    "neutral");
    (JS.Num 0.5,    "nice");
    (JS.Infinity,   "very nice") ].

Section Analyzer.

Variable Options : Type.
Variable comparative : string -> option Options -> Q.

Definition averageComparative (texts : list string) (options : option Options)
  : JS.number :=
  if (0 <? List.length texts)%nat
  then JS.over (fold_left (fun sum score => JS.plus sum score)
                          (map (fun text => comparative text options) texts) (JS.Num 0))
               (List.length texts)
  else JS.Num 0.

Definition analyzeSentiment (texts : list string) (options : option Options) : string :=
  classify_number SENTIMENT_CATEGORIES (averageComparative texts options).

End Analyzer.

Definition generateSentimentResponse (NumberToString : Q -> string)
  (username sentiment : string) (postCount : Q) : option string :=
  FiveWay.generateSentimentResponse NumberToString
    "ðŸ˜¡" "ðŸ™" "ðŸ˜" "ðŸ™‚" "ðŸ˜„"
    username sentiment postCount.

End Earliest.

(** ** The sentiment module with the nine-row table *)
Module Nine.

Definition SENTIMENT_CATEGORIES : CategoryTable :=
  [ (JS.Num (-3),   "extremely negative");
    (JS.Num (-1.5), "very negative");
    (JS.Num (-0.5), "negative");
    (JS.Num (-0.1), "slightly negative");
    (JS.Num 0.1,    "neutral");
    (JS.Num 0.5,    "slightly positive");
    (JS.Num 1.5,    "positive");
    (JS.Num 3,      "very positive");
    (JS.Infinity,   "extremely positive") ].

Definition analyzeSentiment (score : Q) : string :=
  classify SENTIMENT_CATEGORIES score.

Definition getSentimentEmoji (score : Q) : string :=
  if Qle_bool score (-3) then "ðŸ¤¬"
  else if Qle_bool score (-1.5) then "ðŸ˜¡"
  else if Qle_bool score (-0.5) then "ðŸ˜ "
  else if Qle_bool score (-0.1) then "ðŸ˜•"
  else if Qle_bool score 0.1 then "ðŸ˜"
  else if Qle_bool score 0.5 then "ðŸ™‚"
  else if Qle_bool score 1.5 then "ðŸ˜Š"
  else if Qle_bool score 3 then "ðŸ˜„"
  else "ðŸ¥°".

Record Response : Type :=
  { message : string; detail : string; suggestion : string }.

Definition responses (formattedScore : string) : list (string * Response) :=
  [
    ("extremely negative",
     {| message := "Yikes! Your posts have been giving off some serious storm clouds lately.";
        detail := "Your sentiment score is " ++ formattedScore ++ " (extremely negative).";
        suggestion := "Want to try sprinkling in some positivity? It might brighten up your corner of the internet!" |});
    ("very negative",
     {| message := "Hmm, seems like you've been having some rough conversations recently.";
        detail := "Your sentiment score is " ++ formattedScore ++ " (very negative).";
        suggestion := "A dash of kindness goes a long way - might be worth giving it a shot?" |});
    ("negative",
     {| message := "Your recent posts have a bit of an edge to them.";
        detail := "Your sentiment score is " ++ formattedScore ++ " (negative).";
        suggestion := "Try adding a positive comment for every critical one - it works wonders!" |});
    ("slightly negative",
     {| message := "You're leaning slightly toward the grumpy side of the internet.";
        detail := "Your sentiment score is " ++ formattedScore ++ " (slightly negative).";
        suggestion := "You're almost at neutral territory - just a few kind words could tip the balance!" |});
    ("neutral",
     {| message := "You're walking the middle path in your online conversations.";
        detail := "Your sentiment score is " ++ formattedScore ++ " (perfectly balanced).";
        suggestion := "Neither overly critical nor excessively sweet - the Switzerland of Bluesky!" |});
    ("slightly positive",
     {| message := "There's a hint of sunshine in your recent posts!";
        detail := "Your sentiment score is " ++ formattedScore ++ " (slightly positive).";
        suggestion := "That touch of positivity makes a difference - keep it up!" |});
    ("positive",
     {| message := "Your posts have a genuinely warm vibe to them.";
        detail := "Your sentiment score is " ++ formattedScore ++ " (positive).";
        suggestion := "Your energy is exactly what social media needs more of!" |});
    ("very positive",
     {| message := "Wow, you're radiating good vibes in your posts!";
        detail := "Your sentiment score is " ++ formattedScore ++ " (very positive).";
        suggestion := "Whatever you're doing, it's working - your positivity is contagious!" |});
    ("extremely positive",
     {| message := "Are you made of sunshine?! Your posts are off-the-charts uplifting!";
        detail := "Your sentiment score is " ++ formattedScore ++ " (extremely positive).";
        suggestion := "You're in rare air with this level of positivity - you must brighten everyone's day!" |})
  ].

(** [responses[sentiment]] *)
Fixpoint property (key : string) (object : list (string * Response)) : option Response :=
  match object with
  | [] => None
  | (k, v) :: rest => if String.eqb k key then Some v else property key rest
  end.

Section Engine.

Variable NumberToString : Q -> string.

Definition formatScore (score : Q) : string :=
  (if JS.ge score 0 then "+" else "")
  ++ JS.replace_trailing_zeros (JS.toFixed NumberToString score 2).

(** [postCount] (default 100) is accepted and not used.  Destructuring
    a missing entry of [responses] would throw; that is [None]. *)
Definition generateSentimentResponse (username : string) (score : Q) (postCount : Z)
  : option string :=
  let sentiment := analyzeSentiment score in
  let emoji := getSentimentEmoji score in
  let formattedScore := formatScore score in
  match property sentiment (responses formattedScore) with
  | Some r =>
      Some (emoji ++ " Hey @" ++ username ++ "! " ++ message r ++ " "
            ++ detail r ++ " " ++ suggestion r)
  | None => None
  end.

End Engine.

End Nine.

(** ** The latest sentiment module: branching classifier, phrase pools *)
Module Latest.

Definition analyzeSentiment (score : Q) : string :=
  if JS.seq score 0 then "neutral"
  else if JS.lt score 0 then
    if Qle_bool score (-3) then "extremely negative"
    else if Qle_bool score (-1.5) then "very negative"
    else if Qle_bool score (-0.5) then "negative"
    else "slightly negative"
  else
    if Qle_bool score 0.5 then "slightly positive"
    else if Qle_bool score 1.5 then "positive"
    else if Qle_bool score 3 then "very positive"
    else "extremely positive".

Definition getSentimentEmoji (score : Q) : string :=
  if JS.seq score 0 then "😐"
  else if JS.lt score 0 then
    if Qle_bool score (-3) then "🤬"
    else if Qle_bool score (-1.5) then "😡"
    else if Qle_bool score (-0.5) then "😠"
    else "😕"
  else
    if Qle_bool score 0.1 then "🙂"
    else if Qle_bool score 0.5 then "😌"
    else if Qle_bool score 1.5 then "😊"
    else if Qle_bool score 3 then "😄"
    else "🥰".

(** Neutral (0) *)
Definition neutral : list string :=
  [ "Your vibe is pretty neutral right now.";
    "You're keeping it balanced in your conversations.";
    "Not leaning positive or negative - just keeping it real.";
    "You're in the neutral zone with your messaging.";
    "Your posts are giving very middle-of-the-road energy.";
    "You're neither a downer nor a hype machine right now.";
    "Your messages are about as neutral as they come." ].

(** Slightly negative (-0.1 to -0.5) *)
Definition slightlyNegative : list string :=
  [ "There's a bit of an edge to your recent posts.";
    "You seem slightly annoyed in your conversations.";
    "Your tone's got a tiny bite to it lately.";
    "You're giving off some minor irritation vibes.";
    "Your messages have a subtle hint of frustration.";
    "You're keeping it real, maybe a little too real.";
    "There's a dash of salt in your recent comments.";
    "You're not exactly feeling the warm fuzzies right now." ].

(** Moderately negative (-0.5 to -1.5) *)
Definition moderatelyNegative : list string :=
  [ "You're not holding back the negativity lately.";
    "Your posts are giving off some serious side-eye.";
    "You seem pretty fed up in your recent messages.";
    "You're definitely in a mood based on these posts.";
    "Your patience seems to be wearing thin.";
    "You're not exactly spreading the joy right now.";
    "Your messages suggest you're having a rough time.";
    "The frustration is coming through loud and clear." ].

(** Very negative (-1.5 to -3) *)
Definition veryNegative : list string :=
  [ "Your posts are radiating some serious negativity.";
    "You're not mincing words about how you feel. And it's not great.";
    "You're in a proper funk based on these messages.";
    "Your messages are giving major 'stay away' energy.";
    "You're really letting your dark side show in these posts.";
    "Your conversations are dripping with hostility lately.";
    "You're throwing some serious shade in your messaging.";
    "These posts suggest you're having a genuinely awful time." ].

(** Extremely negative (below -3) *)
Definition extremelyNegative : list string :=
  [ "Your posts are nuclear-level negative right now.";
    "Damn, who hurt you? Your messages are brutal.";
    "You're on a rampage with these comments.";
    "Your posts are absolutely scorching the earth.";
    "These messages could make a therapist wince.";
    "You're not just burning bridges, you're obliterating them.";
    "Your negativity meter is completely maxed out.";
    "You might want to step away from the keyboard for a bit." ].

(** Slightly positive (0.1 to 0.5) *)
Definition slightlyPositive : list string :=
  [ "There's a hint of positivity in your posts.";
    "You're giving off subtle good vibes.";
    "Your messages have a slight upbeat tone to them.";
    "You seem to be in a decent mood in your posts.";
    "There's a gentle optimism in your messages.";
    "You're leaning slightly toward the bright side.";
    "Your posts have a minor positive spin to them.";
    "You're keeping things just a little sunny in your messages." ].

(** Moderately positive (0.5 to 1.5) *)
Definition moderatelyPositive : list string :=
  [ "You've got some genuinely good energy in your posts.";
    "Your messages are giving off solid positive vibes.";
    "You seem to be in a pretty good headspace right now.";
    "Your positivity is definitely coming through.";
    "You're bringing some welcome warmth to conversations.";
    "Your posts have a refreshingly upbeat quality.";
    "You're spreading good vibes without overdoing it.";
    "There's an authentic brightness to your messages." ].

(** Very positive (1.5 to 3) *)
Definition veryPositive : list string :=
  [ "Your posts are seriously uplifting to read.";
    "You're bringing major positive energy to these conversations.";
    "Your messages could brighten anyone's day.";
    "You're not just positive, you're inspiringly so.";
    "Your posts radiate genuine enthusiasm and warmth.";
    "You're on a real positivity streak in these messages.";
    "Your good vibes game is exceptionally strong right now.";
    "You're like a breath of fresh air in these conversations." ].

(** Extremely positive (above 3) *)
Definition extremelyPositive : list string :=
  [ "Your posts are off-the-charts positive right now.";
    "You're basically a walking serotonin boost with these messages.";
    "Your positivity is almost suspiciously high. And I'm here for it.";
    "You must be having the best day ever based on these posts.";
    "Your optimism levels are through the roof.";
    "You're not just spreading positivity, you're weaponizing it.";
    "Your posts are making unicorns and rainbows seem cynical.";
    "Whatever you're on, I want some. Your positivity is unreal." ].

(** Extremely negative suggestions (score <= -3) *)
Definition extremelyNegativeSuggestions : list string :=
  [ "Whoa there - you might want to take a breath before sending that.";
    "Consider if this level of negativity is really getting your point across.";
    "Your posts are pretty harsh - maybe sleep on it before sending?";
    "Your frustration is clear, but a calmer approach might be more effective.";
    "Try focusing on solutions rather than just the problems.";
    "Your posts might burn bridges - is that what you really want?";
    "Consider if your tone matches how you want to be perceived online.";
    "Your critiques might be valid, but the delivery could use some work.";
    "Think about whether your posts will help or just escalate things.";
    "Maybe try reframing your concerns in a more constructive way." ].

(** Very negative suggestions (-3 < score <= -1.5) *)
Definition veryNegativeSuggestions : list string :=
  [ "Your posts come across strongly negative - maybe soften it a bit?";
    "Consider adding some constructive suggestions along with your criticisms.";
    "This level of negativity might overshadow your actual points.";
    "Try acknowledging some positives before diving into the negatives.";
    "Your posts might be taken more seriously with a more measured tone.";
    "Consider if your posts will help resolve the situation or inflame it.";
    "You've made your dissatisfaction clear - now try offering solutions.";
    "Your posts might come across harsher than you intend.";
    "Try focusing on specific issues rather than general negativity.";
    "A more balanced approach might make people more receptive to your feedback." ].

(** Moderately negative suggestions (-1.5 < score <= -0.5) *)
Definition moderatelyNegativeSuggestions : list string :=
  [ "Your posts lean negative - try balancing it with some positives.";
    "Consider whether your tone matches your intentions here.";
    "A little more optimism might make your posts more persuasive.";
    "Try framing your concerns as constructive feedback.";
    "Your skepticism comes through - maybe pair it with some encouragement?";
    "Consider adding some solutions along with pointing out problems.";
    "Your critical eye is valuable, but so is acknowledging what's working.";
    "Try sandwiching your criticism between positive observations.";
    "A slightly more upbeat tone might help get your message across.";
    "Consider if your posts might be interpreted as more negative than intended." ].

(** Slightly negative suggestions (-0.5 < score < 0) *)
Definition slightlyNegativeSuggestions : list string :=
  [ "Your posts have a slight edge to it - a bit more positivity could help.";
    "Consider adding some encouraging words to balance out the tone.";
    "Try acknowledging the positives before getting into concerns.";
    "Your posts come across as a bit dismissive - maybe soften it?";
    "A slightly warmer tone might make your posts more effective.";
    "Consider whether this slight negativity is intentional or accidental.";
    "Try phrasing your concerns as questions instead of statements.";
    "Your posts have a subtle negative undertone - is that what you intended?";
    "A touch more enthusiasm could change how your posts are received.";
    "Consider if a more positive framing would better serve your purpose." ].

(** Neutral suggestions (score = 0) *)
Definition neutralSuggestions : list string :=
  [ "Your posts are pretty neutral - try adding some personality.";
    "Show a bit more of your authentic feelings next time.";
    "Your tone is balanced, but don't be afraid to express more emotion.";
    "Consider adding more colour to your posts to stand out.";
    "Your neutrality is fine, but people connect more with emotional content.";
    "Try injecting some enthusiasm into your next post.";
    "Your posts are safe, but sometimes taking a stance connects better.";
    "Being neutral is fine, but showing passion can be more engaging.";
    "Consider whether your balanced approach is actually what you intend.";
    "A bit more expressiveness might make your posts more memorable." ].

(** Slightly positive suggestions (0 < score < 0.5) *)
Definition slightlyPositiveSuggestions : list string :=
  [ "Keep up that positive energy in your posts! A bit more could really shine.";
    "Your posts have a nice optimistic feel - let it show even more!";
    "Love seeing those hints of positivity. Why not express it more openly?";
    "You seem to be in a good mood - share more of that with your followers!";
    "You're spreading some good vibes. Don't be shy about it!";
    "That subtle positivity in your posts is great. Let it out more!";
    "Nice to see you keeping things upbeat. Your followers probably appreciate it.";
    "You're bringing some light positivity - feel free to brighten it up more!";
    "Those positive posts are a good look on you. Keep that energy going!";
    "Your posts have a nice warm tone. Your followers might enjoy even more of that." ].

(** Moderately positive suggestions (0.5 <= score < 1.5) *)
Definition moderatelyPositiveSuggestions : list string :=
  [ "You're spreading good vibes! Maybe share what specifically made you feel this way?";
    "Love your upbeat posts! Adding details about why could inspire others even more.";
    "Your optimism is contagious! Tell us more about what sparked this positivity.";
    "You're clearly feeling great! Share the story behind that enthusiasm.";
    "Such a positive outlook! What specific moments led to these good feelings?";
    "Your cheerful posts brighten the feed! What exactly has you so pumped?";
    "You're radiating happiness! Let's hear the details that got you there.";
    "Loving this positive energy! Paint us a picture of what inspired it.";
    "You're in such a great headspace! Share those little wins with us.";
    "Your posts are a ray of sunshine! Tell us more about these happy moments." ].

(** Very positive suggestions (1.5 <= score < 3) *)
Definition veryPositiveSuggestions : list string :=
  [ "Your posts are super positive! Maybe share what specifically got you so excited?";
    "Loving your enthusiastic posts! Adding some details would make them even better.";
    "Your feed is full of great vibes! Tell us more about what made your day.";
    "You're spreading so much positivity! Share the story behind all this joy.";
    "Such uplifting posts! What awesome things happened to inspire this?";
    "Your posts are radiating happiness! Let us know what got you feeling this way.";
    "You're in an amazing mood! Give us the highlights that led to this.";
    "Your positivity is infectious! Share those moments that made you smile.";
    "You're really lighting up the timeline! What's got you so pumped?";
    "Love seeing you this happy! Tell everyone what sparked all this good energy." ].

(** Extremely positive suggestions (score >= 3) *)
Definition extremelyPositiveSuggestions : list string :=
  [ "Your incredible enthusiasm is contagious! Share what amazing things led to this joy!";
    "Wow, your positivity is through the roof! Tell us the story behind this excitement!";
    "Your posts are absolutely glowing with happiness! What wonderful things happened?";
    "Such amazing energy in your posts! Share those fantastic moments with everyone!";
    "Your joy is lighting up the timeline! Tell us what has you feeling so fantastic!";
    "Love seeing this boundless optimism! What incredible things got you here?";
    "Your posts are pure sunshine today! Share those amazing experiences!";
    "This enthusiasm is infectious! Let everyone know what sparked such joy!";
    "Your positivity is absolutely radiant! Tell us about these wonderful moments!";
    "Such incredible positive energy! Share the amazing story behind these good vibes!" ].

Definition getRandomArrayItem (array : list string) : Random.M JS.value :=
  r <- Random.Math_random ;;
  Random.ret (JS.at_floor array (JS.times r (JS.length_of array))).

Definition getSentimentMessage (score : Q) : Random.M JS.value :=
  if JS.seq score 0 then getRandomArrayItem neutral
  else if JS.lt score 0 then
    if Qle_bool score (-3) then getRandomArrayItem extremelyNegative
    else if Qle_bool score (-1.5) then getRandomArrayItem veryNegative
    else if Qle_bool score (-0.5) then getRandomArrayItem moderatelyNegative
    else getRandomArrayItem slightlyNegative
  else
    if JS.ge score 3 then getRandomArrayItem extremelyPositive
    else if JS.ge score 1.5 then getRandomArrayItem veryPositive
    else if JS.ge score 0.5 then getRandomArrayItem moderatelyPositive
    else getRandomArrayItem slightlyPositive.

Definition getSentimentSuggestion (score : Q) : Random.M JS.value :=
  if JS.seq score 0 then Random.ret (JS.Arr neutralSuggestions)
  else if JS.lt score 0 then
    if Qle_bool score (-3) then getRandomArrayItem extremelyNegativeSuggestions
    else if Qle_bool score (-1.5) then getRandomArrayItem veryNegativeSuggestions
    else if Qle_bool score (-0.5) then getRandomArrayItem moderatelyNegativeSuggestions
    else getRandomArrayItem slightlyNegativeSuggestions
  else
    if JS.ge score 3 then getRandomArrayItem extremelyPositiveSuggestions
    else if JS.ge score 1.5 then getRandomArrayItem veryPositiveSuggestions
    else if JS.ge score 0.5 then getRandomArrayItem moderatelyPositiveSuggestions
    else getRandomArrayItem slightlyPositiveSuggestions.

(** The reply, given its six interpolated pieces. *)
Definition reply (emoji username message formattedScore sentiment suggestion : string) : string :=
  emoji ++ " Hey @" ++ username ++ "! " ++ message ++ " Your sentiment score is "
  ++ formattedScore ++ " (" ++ sentiment ++ "). " ++ suggestion.

Section Engine.

Variable NumberToString : Q -> string.

Definition generateSentimentResponse (username : string) (score : Q) : Random.M string :=
  let sentiment := analyzeSentiment score in
  let emoji := getSentimentEmoji score in
  message <- getSentimentMessage score ;;
  suggestion <- getSentimentSuggestion score ;;
  let formattedScore := JS.toFixed NumberToString score 2 in
  Random.ret (reply emoji username (JS.ToString message) formattedScore sentiment
                    (JS.ToString suggestion)).

End Engine.

End Latest.

(** ** The mention handler

    What the handler of each revision computes between fetching the posts
    and sending the reply. *)
Module Mention.

(** A record value as the PDS returns it. *)
#[local] Unset Elimination Schemes.
Inductive json : Type :=
  | JNull : json
  | JBool : bool -> json
  | JNumber : Q -> json
  | JString : string -> json
  | JArray : list json -> json
  | JObject : list (string * json) -> json.
#[local] Set Elimination Schemes.

(** [Object.keys(record).includes(key)] on the fields of an object. *)
Definition has_key (key : string) (fields : list (string * json)) : bool :=
  existsb (String.eqb key) (map fst fields).

(** [record[key]]; a parsed object lists each key once. *)
Fixpoint get (key : string) (fields : list (string * json)) : option json :=
  match fields with
  | [] => None
  | (k, v) :: rest => if String.eqb k key then Some v else get key rest
  end.

(** The callback of [records.map]: the [text] of an object that has one
    and has it as a string, the empty string for everything else.  [null]
    and arrays are of type ['object'] too; [null] is excluded by name and
    the keys of an array are its indices. *)
Definition post_text (record : json) : string :=
  match record with
  | JObject fields =>
      if has_key "text" fields
      then match get "text" fields with
           | Some (JString text) => text
           | _ => ""
           end
      else ""
  | _ => ""
  end.

Definition posts_of_records (records : list json) : list string :=
  map post_text records.

Section Handler.

Variable NumberToString : Q -> string.
Variable Options : Type.
Variable comparative : string -> option Options -> Q.

(** src/index.ts, first revision: the records of the repo, the score,
    the category, the reply for 100 posts. *)
Definition reply_text_1 (user : string) (records : list json) : option string :=
  let posts := posts_of_records records in
  let score := Score.analyzeSentimentScore Options comparative posts None in
  let userSentiment := Index1.analyzeSentiment_number score in
  Index1.generateSentimentResponse NumberToString user userSentiment 100.

(** src/index.ts, second revision: the texts come from [getUserPosts]. *)
Definition reply_text_2 (user : string) (posts : list string) : option string :=
  let score := Score.analyzeSentimentScore Options comparative posts None in
  let userSentiment := Index2.analyzeSentiment_number score in
  Index2.generateSentimentResponse NumberToString user userSentiment 100.

(** The earliest revision. *)
Definition reply_text_0 (user : string) (posts : list string) : option string :=
  let userSentiment := Earliest.analyzeSentiment Options comparative posts None in
  Earliest.generateSentimentResponse NumberToString user userSentiment 100.

End Handler.

End Mention.

(** ** Measures used in the statements *)


(** [bound < score] for a score that comes out of the arithmetic. *)
Definition above (bound : Q) (score : JS.number) : Prop :=
  match score with
  | JS.NegInfinity => False
  | JS.Num q => bound < q
  | JS.Infinity => True
  end.

(** The labels of the five-category tables. *)
Definition five_labels : list string :=
  [ "very mean"; "mean"; "neutral"; "nice"; "very nice" ].


(** How many rows the scan passes before it stops; the number of rows
    when it stops nowhere. *)
Fixpoint scan_index (table : CategoryTable) (score : Q) : nat :=
  match table with
  | [] => O
  | row :: rest => if JS.le score (fst row) then O else S (scan_index rest score)
  end.

(** The nine categories in the order the latest module declares them. *)
Definition SentimentCategory : list string :=
  [ "extremely negative"; "very negative"; "negative"; "slightly negative"; "neutral";
    "slightly positive"; "positive"; "very positive"; "extremely positive" ].

(** The place of a label in a list of labels. *)
Fixpoint rank (labels : list string) (label : string) : nat :=
  match labels with
  | [] => O
  | l :: rest => if String.eqb l label then O else S (rank rest label)
  end.

(** The message pool and the suggestion pool of each band of the latest
    composer, as its comments pair them. *)
Definition band_pools : list (list string * list string) :=
  [ (Latest.extremelyNegative, Latest.extremelyNegativeSuggestions);
    (Latest.veryNegative, Latest.veryNegativeSuggestions);
    (Latest.moderatelyNegative, Latest.moderatelyNegativeSuggestions);
    (Latest.slightlyNegative, Latest.slightlyNegativeSuggestions);
    (Latest.slightlyPositive, Latest.slightlyPositiveSuggestions);
    (Latest.moderatelyPositive, Latest.moderatelyPositiveSuggestions);
    (Latest.veryPositive, Latest.veryPositiveSuggestions);
    (Latest.extremelyPositive, Latest.extremelyPositiveSuggestions) ].

(** The texts the handler finds in the records, in their order. *)
Fixpoint texts_found (records : list Mention.json) : list string :=
  match records with
  | [] => []
  | Mention.JObject fields :: rest =>
      match Mention.get "text" fields with
      | Some (Mention.JString text) => text :: texts_found rest
      | _ => texts_found rest
      end
  | _ :: rest => texts_found rest
  end.

(** A number as an operation returns it: an infinity, or a finite double. *)
Definition settled (n : JS.number) : Prop :=
  match n with
  | JS.Num s => JS.round53 s = s /\ JS.overflow s = JS.Num s
  | _ => True
  end.

(** One score from each band of the nine-row table, and one from each
    band of the emoji of the latest module. *)
Definition nine_samples : list Q := [ -4; -2; -1; -0.3; 0; 0.3; 1; 2; 4 ].

Definition latest_samples : list Q := [ -4; -2; -1; -0.3; 0; 0.05; 0.3; 1; 2; 4 ].

(** On the given scores, equal values of [f] come with equal values of
    [g]. *)
Definition follows_on (samples : list Q) (f g : Q -> string) : bool :=
  forallb (fun r1 =>
             forallb (fun r2 => implb (String.eqb (f r1) (f r2)) (String.eqb (g r1) (g r2)))
                     samples)
          samples.

(** ** The score format of the specification

    [n] counts hundredths.  The integer part is always written; of the two
    decimals the trailing zeros go, and the point goes with them when both
    are zero. *)
Definition two_decimals_stripped (n : Z) : string :=
  JS.decimal (n / 100)
  ++ (if (n mod 100 =? 0)%Z then ""
      else if (n mod 10 =? 0)%Z then String "." (String (JS.digit ((n / 10) mod 10)) "")
      else String "." (String (JS.digit ((n / 10) mod 10)) (String (JS.digit (n mod 10)) ""))).

(** The score in hundredths, rounded to the nearest, a half going up. *)
Definition hundredths (magnitude : Q) : Z := Qfloor (magnitude * 100 + (1 # 2)).

Definition signed_two_decimals_stripped (score : Q) : string :=
  (if Qle_bool 0 score then "+" else "-") ++ two_decimals_stripped (hundredths (Qabs score)).

(** Stands in for [Number::toString] where a closed term is needed; below
    10^21 [toFixed] never calls it. *)
Definition unreached : Q -> string := fun _ => "".

(** A source that only ever returns [0]. *)
Definition zero_source : Random.source := fun _ => 0.

(** A source that only ever returns one half. *)
Definition half_source : Random.source := fun _ => 0.5.

(** The threshold tables of the repository. *)
Definition category_tables : list CategoryTable :=
  [ Index1.SENTIMENT_CATEGORIES; Index2.SENTIMENT_CATEGORIES;
    Earliest.SENTIMENT_CATEGORIES; Nine.SENTIMENT_CATEGORIES ].

(** The characters '0' to '9'. *)
Definition is_digit (c : ascii) : bool :=
  (48 <=? nat_of_ascii c)%nat && (nat_of_ascii c <=? 57)%nat.

Fixpoint all_digits (s : string) : bool :=
  match s with
  | "" => true
  | String c rest => is_digit c && all_digits rest
  end.

(** Integer digits, point, two decimals. *)
Definition two_decimals (n : Z) : string :=
  JS.decimal (n / 100)
  ++ String "." (String (JS.digit ((n / 10) mod 10)) (String (JS.digit (n mod 10)) "")).

(** * Properties *)


(** ** Comparisons *)

Lemma Qle_bool_false (a b : Q) : Qle_bool a b = false <-> b < a.
Proof.
  rewrite <- not_true_iff_false, Qle_bool_iff.
  split; [apply Qnot_le_lt | apply Qlt_not_le].
Qed.

Lemma lt_true (a b : Q) : JS.lt a b = true <-> a < b.
Proof. unfold JS.lt. rewrite negb_true_iff. apply Qle_bool_false. Qed.

Lemma lt_false (a b : Q) : JS.lt a b = false <-> b <= a.
Proof. unfold JS.lt. rewrite negb_false_iff. apply Qle_bool_iff. Qed.

(** Turns the boolean tests in the context into the orders they decide. *)
Ltac tests_to_orders :=
  repeat match goal with
    | H : Qle_bool _ _ = true |- _ => apply Qle_bool_iff in H
    | H : Qle_bool _ _ = false |- _ => apply Qle_bool_false in H
    | H : Qeq_bool _ _ = true |- _ => apply Qeq_bool_iff in H
    | H : Qeq_bool _ _ = false |- _ => apply Qeq_bool_neq in H
    | H : JS.lt _ _ = true |- _ => apply lt_true in H
    | H : JS.lt _ _ = false |- _ => apply lt_false in H
    end.

(** Splits on the first test the goal branches on. *)
Ltac split_test :=
  match goal with
  | |- context [if Qle_bool ?a ?b then _ else _] =>
      let E := fresh "E" in destruct (Qle_bool a b) eqn:E
  | |- context [if Qeq_bool ?a ?b then _ else _] =>
      let E := fresh "E" in destruct (Qeq_bool a b) eqn:E
  | |- context [if JS.lt ?a ?b then _ else _] =>
      let E := fresh "E" in destruct (JS.lt a b) eqn:E
  end.

Ltac by_order := tests_to_orders; try discriminate; try reflexivity; try lra.

(** ** Rounding to the nearest double *)

Lemma units_positive : 0 < JS.units.
Proof. reflexivity. Qed.

Lemma grid_comp (x y : Q) : x == y -> JS.grid x = JS.grid y.
Proof.
  intros H. unfold JS.grid.
  assert (E : Qfloor (x * JS.units) = Qfloor (y * JS.units))
    by (apply Qfloor_comp; apply Qmult_comp; [exact H | reflexivity]).
  rewrite E. reflexivity.
Qed.

Lemma nearest_even_comp (x y : Q) : x == y -> JS.nearest_even x = JS.nearest_even y.
Proof.
  intros H. unfold JS.nearest_even.
  assert (E : Qfloor x = Qfloor y) by (apply Qfloor_comp; exact H).
  rewrite E.
  assert (C : Qcompare (x - inject_Z (Qfloor y)) (1 # 2)
              = Qcompare (y - inject_Z (Qfloor y)) (1 # 2)).
  { apply Qcompare_comp; [|reflexivity]. apply Qplus_comp; [exact H | reflexivity]. }
  rewrite C. reflexivity.
Qed.

Lemma round_magnitude_comp (x y : Q) : x == y -> JS.round_magnitude x == JS.round_magnitude y.
Proof.
  intros H. unfold JS.round_magnitude. rewrite (grid_comp x y H).
  rewrite (nearest_even_comp (x * JS.units / inject_Z (JS.grid y)) (y * JS.units / inject_Z (JS.grid y)))
    by (apply Qmult_comp; [apply Qmult_comp; [exact H | reflexivity] | reflexivity]).
  reflexivity.
Qed.

Lemma round53_comp (x y : Q) : x == y -> JS.round53 x = JS.round53 y.
Proof.
  intros H. unfold JS.round53. apply Qred_complete.
  rewrite (Qleb_comp 0 0 (Qeq_refl 0) x y H).
  destruct (Qle_bool 0 y).
  - apply round_magnitude_comp. exact H.
  - apply Qopp_comp. apply round_magnitude_comp. apply Qopp_comp. exact H.
Qed.

Lemma floor_bounds (x : Q) : inject_Z (Qfloor x) <= x /\ x < inject_Z (Qfloor x) + 1.
Proof.
  split; [apply Qfloor_le|].
  pose proof (Qlt_floor x) as H. rewrite inject_Z_plus in H. exact H.
Qed.

Lemma nearest_even_cases (x : Q) :
  (JS.nearest_even x = Qfloor x /\ x - inject_Z (Qfloor x) <= 1 # 2)
  \/ (JS.nearest_even x = (Qfloor x + 1)%Z /\ 1 # 2 <= x - inject_Z (Qfloor x)).
Proof.
  unfold JS.nearest_even.
  destruct (Qcompare (x - inject_Z (Qfloor x)) (1 # 2)) eqn:E.
  - apply Qeq_alt in E. destruct (Z.even (Qfloor x)); [left | right]; split;
      try reflexivity; rewrite E; apply Qle_refl.
  - apply Qlt_alt in E. left. split; [reflexivity | apply Qlt_le_weak; exact E].
  - apply Qgt_alt in E. right. split; [reflexivity | apply Qlt_le_weak; exact E].
Qed.

Lemma nearest_even_nonneg (x : Q) : 0 <= x -> (0 <= JS.nearest_even x)%Z.
Proof.
  intros H.
  assert (Hf : (0 <= Qfloor x)%Z).
  { change 0%Z with (Qfloor 0). apply Qfloor_resp_le. exact H. }
  destruct (nearest_even_cases x) as [[-> _]|[-> _]]; lia.
Qed.

Lemma nearest_even_le (x : Q) (M : Z) : x <= inject_Z M -> (JS.nearest_even x <= M)%Z.
Proof.
  intros H. destruct (floor_bounds x) as [Hlo Hhi].
  destruct (nearest_even_cases x) as [[-> Hc]|[-> Hc]].
  - rewrite Zle_Qle. lra.
  - assert (Hlt : inject_Z (Qfloor x) < inject_Z M) by lra.
    rewrite <- Zlt_Qlt in Hlt. lia.
Qed.

Lemma nearest_even_below (x : Q) (M : Z) :
  x < inject_Z M - (1 # 2) -> (JS.nearest_even x <= M - 1)%Z.
Proof.
  intros H. destruct (floor_bounds x) as [Hlo Hhi].
  destruct (nearest_even_cases x) as [[-> Hc]|[-> Hc]].
  - assert (Hlt : inject_Z (Qfloor x) < inject_Z M) by lra.
    rewrite <- Zlt_Qlt in Hlt. lia.
  - assert (Hlt : inject_Z (Qfloor x) + 1 < inject_Z M) by lra.
    change 1 with (inject_Z 1) in Hlt. rewrite <- inject_Z_plus, <- Zlt_Qlt in Hlt. lia.
Qed.

Lemma grid_power (m : Q) :
  exists e : Z, (0 <= e)%Z /\ JS.grid m = (2 ^ e)%Z
                /\ (e = 0%Z \/ (e + 52)%Z = Z.log2 (Qfloor (m * JS.units))).
Proof.
  unfold JS.grid. exists (Z.max (Z.log2 (Qfloor (m * JS.units)) - 52) 0).
  split; [lia|]. split; [reflexivity|]. lia.
Qed.

Lemma grid_positive (m : Q) : 0 < inject_Z (JS.grid m).
Proof.
  destruct (grid_power m) as [e [He [-> _]]].
  change 0 with (inject_Z 0). rewrite <- Zlt_Qlt. apply Z.pow_pos_nonneg; lia.
Qed.

Lemma round_magnitude_nonneg (m : Q) : 0 <= m -> 0 <= JS.round_magnitude m.
Proof.
  intros H. unfold JS.round_magnitude.
  pose proof (grid_positive m) as Hg. pose proof units_positive as Hu.
  assert (Hy : 0 <= m * JS.units / inject_Z (JS.grid m)).
  { apply Qle_shift_div_l; [exact Hg|]. rewrite Qmult_0_l. apply Qmult_le_0_compat; lra. }
  pose proof (nearest_even_nonneg _ Hy) as Hn.
  apply Qle_shift_div_l; [exact Hu|]. rewrite Qmult_0_l.
  change 0 with (inject_Z 0). rewrite <- Zle_Qle.
  apply Z.mul_nonneg_nonneg; [|exact Hn].
  rewrite Zle_Qle. change (inject_Z 0) with 0. lra.
Qed.

(** The rounded magnitude stays at or below a multiple of the grid the
    magnitude is not above. *)
Lemma round_magnitude_le (m : Q) (M : Z) :
  0 <= m -> m * JS.units <= inject_Z (JS.grid m * M) ->
  JS.round_magnitude m <= inject_Z (JS.grid m * M) / JS.units.
Proof.
  intros H0 Hle. unfold JS.round_magnitude.
  pose proof (grid_positive m) as Hg. pose proof units_positive as Hu.
  assert (Hy : m * JS.units / inject_Z (JS.grid m) <= inject_Z M).
  { apply Qle_shift_div_r; [exact Hg|]. rewrite inject_Z_mult in Hle. lra. }
  pose proof (nearest_even_le _ _ Hy) as Hn.
  apply Qle_shift_div_l; [exact Hu|].
  unfold Qdiv. rewrite <- Qmult_assoc, (Qmult_comm (/ JS.units)), Qmult_inv_r, Qmult_1_r by lra.
  rewrite <- Zle_Qle. apply Z.mul_le_mono_nonneg_l; [|exact Hn].
  rewrite Zle_Qle. change (inject_Z 0) with 0. lra.
Qed.

Lemma round_magnitude_below (m : Q) (M : Z) :
  0 <= m -> m * JS.units < inject_Z (JS.grid m * M) - inject_Z (JS.grid m) * (1 # 2) ->
  JS.round_magnitude m <= inject_Z (JS.grid m * (M - 1)) / JS.units.
Proof.
  intros H0 Hlt. unfold JS.round_magnitude.
  pose proof (grid_positive m) as Hg. pose proof units_positive as Hu.
  assert (Hy : m * JS.units / inject_Z (JS.grid m) < inject_Z M - (1 # 2)).
  { apply Qlt_shift_div_r; [exact Hg|]. rewrite inject_Z_mult in Hlt. lra. }
  pose proof (nearest_even_below _ _ Hy) as Hn.
  apply Qle_shift_div_l; [exact Hu|].
  unfold Qdiv. rewrite <- Qmult_assoc, (Qmult_comm (/ JS.units)), Qmult_inv_r, Qmult_1_r by lra.
  rewrite <- Zle_Qle. apply Z.mul_le_mono_nonneg_l; [|exact Hn].
  rewrite Zle_Qle. change (inject_Z 0) with 0. lra.
Qed.

(** The largest double below 1. *)
Lemma below_one_units : JS.below_one * JS.units == inject_Z (2 ^ 1021 * (2 ^ 53 - 1)).
Proof. vm_compute. reflexivity. Qed.

Lemma round53_nonneg_eq (q : Q) : 0 <= q -> JS.round53 q == JS.round_magnitude q.
Proof.
  intros H. unfold JS.round53. rewrite Qred_correct.
  assert (E : Qle_bool 0 q = true) by (apply Qle_bool_iff; exact H).
  rewrite E. reflexivity.
Qed.

Lemma floor_units_nonneg (m : Q) : 0 <= m -> (0 <= Qfloor (m * JS.units))%Z.
Proof.
  intros H. change 0%Z with (Qfloor 0). apply Qfloor_resp_le.
  pose proof units_positive. apply Qmult_le_0_compat; lra.
Qed.

(** The exponent of the grid is bounded by the magnitude. *)
Lemma grid_exponent_bound (m : Q) (e B : Z) :
  0 <= m -> (0 <= e)%Z -> (e + 52)%Z = Z.log2 (Qfloor (m * JS.units)) ->
  m * JS.units < inject_Z B ->
  (2 ^ (e + 52) < B)%Z.
Proof.
  intros H0 He Hlog Hlt.
  set (N := Qfloor (m * JS.units)) in *.
  assert (HN : (0 < N)%Z).
  { destruct (Z_lt_le_dec 0 N) as [Hp|Hn]; [exact Hp|].
    rewrite (Z.log2_nonpos N Hn) in Hlog. lia. }
  pose proof (Z.log2_spec N HN) as [Hpow _]. rewrite <- Hlog in Hpow.
  assert (HNB : inject_Z N < inject_Z B).
  { apply Qle_lt_trans with (m * JS.units); [apply Qfloor_le | exact Hlt]. }
  rewrite <- Zlt_Qlt in HNB. lia.
Qed.

Lemma draw_rounds_within (r : Q) :
  0 <= r -> r <= JS.below_one -> 0 <= JS.round53 r /\ JS.round53 r <= JS.below_one.
Proof.
  intros H0 H1. rewrite (round53_nonneg_eq r H0).
  split; [apply round_magnitude_nonneg; exact H0|].
  pose proof units_positive as Hu.
  assert (Hru : r * JS.units <= inject_Z (2 ^ 1021 * (2 ^ 53 - 1))).
  { rewrite <- below_one_units. apply Qmult_le_compat_r; lra. }
  destruct (grid_power r) as [e [He [Hg Hcase]]].
  assert (Hbound : (e <= 1021)%Z).
  { destruct Hcase as [->|Hlog]; [lia|].
    assert (Hlt : r * JS.units < inject_Z (2 ^ 1074)).
    { apply Qle_lt_trans with (inject_Z (2 ^ 1021 * (2 ^ 53 - 1))); [exact Hru|].
      rewrite <- Zlt_Qlt. reflexivity. }
    pose proof (grid_exponent_bound r e (2 ^ 1074) H0 He Hlog Hlt) as Hp.
    apply Z.pow_lt_mono_r_iff in Hp; lia. }
  assert (Hsplit : (2 ^ 1021 * (2 ^ 53 - 1) = JS.grid r * (2 ^ (1021 - e) * (2 ^ 53 - 1)))%Z).
  { rewrite Hg, Z.mul_assoc, <- Z.pow_add_r by lia. f_equal. f_equal. lia. }
  assert (Htop : JS.below_one == inject_Z (JS.grid r * (2 ^ (1021 - e) * (2 ^ 53 - 1))) / JS.units).
  { rewrite <- Hsplit, <- below_one_units. field. lra. }
  rewrite Htop. apply round_magnitude_le; [exact H0|]. rewrite <- Hsplit. exact Hru.
Qed.

(** A double in [0, 1) times a length below 2^53 rounds to less than the
    length. *)
Lemma scaled_draw_below_length (d : Q) (L : Z) :
  0 <= d -> d <= JS.below_one -> (1 <= L)%Z -> (L < 2 ^ 53)%Z ->
  0 <= JS.round53 (d * inject_Z L) /\ JS.round53 (d * inject_Z L) < inject_Z L.
Proof.
  intros H0 H1 HL1 HL2.
  pose proof units_positive as Hu.
  assert (HLQ : 1 <= inject_Z L) by (change 1 with (inject_Z 1); rewrite <- Zle_Qle; exact HL1).
  assert (Hx0 : 0 <= d * inject_Z L) by (apply Qmult_le_0_compat; lra).
  rewrite (round53_nonneg_eq _ Hx0).
  split; [apply round_magnitude_nonneg; exact Hx0|].
  set (x := d * inject_Z L) in *.
  assert (Hxu : x * JS.units <= inject_Z L * JS.units - inject_Z L * inject_Z (2 ^ 1021)).
  { assert (Hb : JS.below_one * JS.units == JS.units - inject_Z (2 ^ 1021)).
    { rewrite below_one_units. vm_compute. reflexivity. }
    subst x.
    assert (Hd : d * JS.units <= JS.units - inject_Z (2 ^ 1021)).
    { rewrite <- Hb. apply Qmult_le_compat_r; lra. }
    assert (Hprod : d * inject_Z L * JS.units == inject_Z L * (d * JS.units)) by ring.
    rewrite Hprod.
    assert (Hm : inject_Z L * (d * JS.units) <= inject_Z L * (JS.units - inject_Z (2 ^ 1021))).
    { rewrite !(Qmult_comm (inject_Z L)). apply Qmult_le_compat_r; lra. }
    lra. }
  assert (Hpos1021 : 0 < inject_Z (2 ^ 1021)) by reflexivity.
  assert (Hxlt : x * JS.units < inject_Z (L * 2 ^ 1074)).
  { rewrite inject_Z_mult. change (inject_Z (2 ^ 1074)) with JS.units.
    assert (0 < inject_Z L * inject_Z (2 ^ 1021)) by (apply Qmult_lt_0_compat; lra). lra. }
  destruct (grid_power x) as [e [He [Hg Hcase]]].
  assert (Hsmall : (2 ^ e < L * 2 ^ 1022)%Z /\ (e <= 1074)%Z).
  { destruct Hcase as [->|Hlog].
    - split; [|lia]. change (2 ^ 0)%Z with 1%Z.
      assert (0 < 2 ^ 1022)%Z by (apply Z.pow_pos_nonneg; lia). nia.
    - pose proof (grid_exponent_bound x e (L * 2 ^ 1074) Hx0 He Hlog Hxlt) as Hp.
      rewrite Z.pow_add_r in Hp by lia.
      assert (Hp52 : (0 < 2 ^ 52)%Z) by (apply Z.pow_pos_nonneg; lia).
      assert (H1074 : (2 ^ 1074 = 2 ^ 1022 * 2 ^ 52)%Z) by (rewrite <- Z.pow_add_r by lia; reflexivity).
      split; [rewrite H1074 in Hp; nia|].
      assert (Hlt : (2 ^ e * 2 ^ 52 < 2 ^ 53 * 2 ^ 1074)%Z).
      { assert (0 < 2 ^ 1074)%Z by (apply Z.pow_pos_nonneg; lia). nia. }
      rewrite <- !Z.pow_add_r in Hlt by lia.
      apply Z.pow_lt_mono_r_iff in Hlt; lia. }
  destruct Hsmall as [Hsmall He1074].
  set (M := (L * 2 ^ (1074 - e))%Z).
  assert (HgM : (JS.grid x * M = L * 2 ^ 1074)%Z).
  { subst M. rewrite Hg. rewrite Z.mul_comm, <- Z.mul_assoc, <- Z.pow_add_r by lia.
    f_equal. f_equal. lia. }
  assert (Hhalf : inject_Z (JS.grid x) * (1 # 2) < inject_Z L * inject_Z (2 ^ 1021)).
  { rewrite Hg. rewrite <- inject_Z_mult.
    assert (Hz : (2 ^ e < 2 * (L * 2 ^ 1021))%Z).
    { assert (H1022 : (2 ^ 1022 = 2 * 2 ^ 1021)%Z) by (rewrite <- Z.pow_succ_r by lia; reflexivity).
      rewrite H1022 in Hsmall. lia. }
    rewrite Zlt_Qlt, inject_Z_mult in Hz. change (inject_Z 2) with 2 in Hz. lra. }
  assert (Hbelow : x * JS.units < inject_Z (JS.grid x * M) - inject_Z (JS.grid x) * (1 # 2)).
  { rewrite HgM, inject_Z_mult. change (inject_Z (2 ^ 1074)) with JS.units. lra. }
  pose proof (round_magnitude_below x M Hx0 Hbelow) as Hround.
  apply Qle_lt_trans with (inject_Z (JS.grid x * (M - 1)) / JS.units); [exact Hround|].
  apply Qlt_shift_div_r; [exact Hu|].
  rewrite Z.mul_sub_distr_l, Z.mul_1_r, HgM.
  unfold Zminus. rewrite inject_Z_plus, inject_Z_opp, inject_Z_mult.
  change (inject_Z (2 ^ 1074)) with JS.units.
  pose proof (grid_positive x). lra.
Qed.

(** *** A double rounds to itself *)

Lemma nearest_even_whole (n : Z) : JS.nearest_even (inject_Z n) = n.
Proof.
  unfold JS.nearest_even. rewrite Qfloor_Z.
  assert (C : Qcompare (inject_Z n - inject_Z n) (1 # 2) = Lt).
  { apply Qlt_alt. assert (E : inject_Z n - inject_Z n == 0) by ring. rewrite E. reflexivity. }
  rewrite C. reflexivity.
Qed.

(** The JS.grid leaves a magnitude at most 53 bits. *)
Lemma grid_leaves_53_bits (m : Q) :
  0 <= m ->
  exists e : Z, (0 <= e)%Z /\ JS.grid m = (2 ^ e)%Z /\ m * JS.units < inject_Z (2 ^ (e + 53)).
Proof.
  intros H0. unfold JS.grid.
  set (N := Qfloor (m * JS.units)).
  exists (Z.max (Z.log2 N - 52) 0). split; [lia|]. split; [reflexivity|].
  assert (HN : (N + 1 <= 2 ^ (Z.max (Z.log2 N - 52) 0 + 53))%Z).
  { destruct (Z_lt_le_dec 0 N) as [Hp|Hn].
    - pose proof (Z.log2_spec N Hp) as [_ Hup].
      assert (Hmono : (2 ^ Z.succ (Z.log2 N) <= 2 ^ (Z.max (Z.log2 N - 52) 0 + 53))%Z)
        by (apply Z.pow_le_mono_r; lia).
      lia.
    - assert (0 < 2 ^ (Z.max (Z.log2 N - 52) 0 + 53))%Z by (apply Z.pow_pos_nonneg; lia).
      lia. }
  destruct (floor_bounds (m * JS.units)) as [_ Hhi]. fold N in Hhi.
  apply Qlt_le_trans with (inject_Z N + 1); [exact Hhi|].
  change 1 with (inject_Z 1). rewrite <- inject_Z_plus, <- Zle_Qle. exact HN.
Qed.

Lemma round_magnitude_fixed (m : Q) :
  0 <= m -> JS.round_magnitude (JS.round_magnitude m) == JS.round_magnitude m.
Proof.
  intros H0. pose proof units_positive as Hu.
  destruct (grid_leaves_53_bits m H0) as [e [He [Hg Hbits]]].
  set (x := JS.round_magnitude m).
  assert (Hx : x = inject_Z (JS.grid m * JS.nearest_even (m * JS.units / inject_Z (JS.grid m))) / JS.units)
    by reflexivity.
  set (k := JS.nearest_even (m * JS.units / inject_Z (JS.grid m))) in *.
  pose proof (grid_positive m) as Hgpos.
  assert (Hpow : (0 < 2 ^ e)%Z) by (apply Z.pow_pos_nonneg; lia).
  assert (Hk0 : (0 <= k)%Z).
  { subst k. apply nearest_even_nonneg. apply Qle_shift_div_l; [exact Hgpos|].
    rewrite Qmult_0_l. apply Qmult_le_0_compat; lra. }
  assert (Hk1 : (k <= 2 ^ 53)%Z).
  { subst k. apply nearest_even_le. apply Qle_shift_div_r; [exact Hgpos|].
    rewrite Hg, <- inject_Z_mult, <- Z.pow_add_r by lia.
    rewrite (Z.add_comm 53 e). apply Qlt_le_weak. exact Hbits. }
  rewrite Hg in Hx.
  assert (Hxu : x * JS.units == inject_Z (2 ^ e * k)).
  { rewrite Hx. field. lra. }
  assert (Hfloor : Qfloor (x * JS.units) = (2 ^ e * k)%Z).
  { rewrite (Qfloor_comp _ _ Hxu). apply Qfloor_Z. }
  assert (Hn : exists j n : Z, (0 <= j)%Z /\ JS.grid x = (2 ^ j)%Z /\ (2 ^ e * k = 2 ^ j * n)%Z).
  { unfold JS.grid. rewrite Hfloor.
    exists (Z.max (Z.log2 (2 ^ e * k) - 52) 0).
    destruct (Z.eq_dec k 0) as [->|Hk].
    - exists 0%Z. split; [lia|]. split; [reflexivity|]. lia.
    - destruct (Z.eq_dec k (2 ^ 53)) as [->|Hk'].
      + rewrite <- Z.pow_add_r by lia. rewrite Z.log2_pow2 by lia.
        exists (2 ^ 52)%Z. split; [lia|]. split; [reflexivity|].
        rewrite <- Z.pow_add_r by lia. f_equal. lia.
      + assert (Hlt : (2 ^ e * k < 2 ^ (e + 53))%Z).
        { rewrite Z.pow_add_r by lia. apply Z.mul_lt_mono_pos_l; lia. }
        assert (Hpos : (0 < 2 ^ e * k)%Z) by (apply Z.mul_pos_pos; lia).
        apply Z.log2_lt_pow2 in Hlt; [|exact Hpos].
        set (j := Z.max (Z.log2 (2 ^ e * k) - 52) 0).
        exists (2 ^ (e - j) * k)%Z. split; [lia|]. split; [reflexivity|].
        rewrite Z.mul_assoc, <- Z.pow_add_r by lia. f_equal. f_equal. lia. }
  destruct Hn as [j [n [Hj [Hgx Hsplit]]]].
  unfold JS.round_magnitude at 1. fold x. rewrite Hgx.
  assert (Hjpos : (0 < 2 ^ j)%Z) by (apply Z.pow_pos_nonneg; lia).
  assert (HjQ : 0 < inject_Z (2 ^ j)) by (change 0 with (inject_Z 0); rewrite <- Zlt_Qlt; exact Hjpos).
  assert (Harg : x * JS.units / inject_Z (2 ^ j) == inject_Z n).
  { rewrite Hxu, Hsplit, inject_Z_mult. field. lra. }
  rewrite (nearest_even_comp _ _ Harg), nearest_even_whole, <- Hsplit.
  rewrite Hx. reflexivity.
Qed.

Lemma round_magnitude_zero : JS.round_magnitude 0 == 0.
Proof. vm_compute. reflexivity. Qed.

Lemma round53_fixed (q : Q) : JS.round53 (JS.round53 q) = JS.round53 q.
Proof.
  assert (Hsame : JS.round53 (JS.round53 q)
                  == (if Qle_bool 0 q then JS.round_magnitude q else - JS.round_magnitude (- q))).
  { destruct (Qle_bool 0 q) eqn:E.
    - apply Qle_bool_iff in E.
      pose proof (round_magnitude_nonneg q E) as Hr.
      assert (Hrq : JS.round53 q == JS.round_magnitude q) by (apply round53_nonneg_eq; exact E).
      rewrite (round53_comp _ _ Hrq).
      rewrite (round53_nonneg_eq _ Hr). apply round_magnitude_fixed. exact E.
    - assert (Hneg : q < 0).
      { destruct (Qlt_le_dec q 0) as [H|H]; [exact H|].
        apply Qle_bool_iff in H. congruence. }
      assert (Hm : 0 <= - q) by lra.
      pose proof (round_magnitude_nonneg (- q) Hm) as Hr.
      assert (Hrq : JS.round53 q == - JS.round_magnitude (- q)).
      { unfold JS.round53. rewrite Qred_correct, E. reflexivity. }
      rewrite (round53_comp _ _ Hrq).
      destruct (Qle_bool 0 (- JS.round_magnitude (- q))) eqn:E'.
      + apply Qle_bool_iff in E'.
        assert (Hz : JS.round_magnitude (- q) == 0) by lra.
        assert (Hz' : - JS.round_magnitude (- q) == 0) by lra.
        rewrite (round53_comp _ _ Hz'). rewrite Hz'. vm_compute. reflexivity.
      + unfold JS.round53 at 1. rewrite Qred_correct, E'.
        assert (Hopp : - - JS.round_magnitude (- q) == JS.round_magnitude (- q)) by ring.
        rewrite (round_magnitude_comp _ _ Hopp).
        rewrite (round_magnitude_fixed (- q) Hm). reflexivity. }
  unfold JS.round53 at 1 3.
  apply Qred_complete.
  unfold JS.round53 in Hsame. rewrite Qred_correct in Hsame.
  fold (JS.round53 q) in Hsame.
  exact Hsame.
Qed.

(** ** The scan *)

Lemma scan_cons (row : JS.number * string) (rest : CategoryTable) (score : Q) :
  scan (row :: rest) score = if JS.le score (fst row) then Some row else scan rest score.
Proof. reflexivity. Qed.

Lemma classify_cons (row : JS.number * string) (rest : CategoryTable) (score : Q) :
  classify (row :: rest) score
  = if JS.le score (fst row) then snd row else classify rest score.
Proof.
  unfold classify. rewrite scan_cons.
  destruct (JS.le score (fst row)); [destruct row|]; reflexivity.
Qed.

Lemma classify_scan (table : CategoryTable) (score : Q) :
  classify table score
  = match scan table score with Some row => snd row | None => "neutral" end.
Proof. unfold classify. destruct (scan table score) as [[b l]|]; reflexivity. Qed.

Lemma scan_some (table : CategoryTable) (score : Q) (row : JS.number * string) :
  scan table score = Some row -> In row table /\ JS.le score (fst row) = true.
Proof. unfold scan. intros H. apply find_some in H. exact H. Qed.

Lemma le_unbounded (score : Q) : JS.le score JS.Infinity = true.
Proof. reflexivity. Qed.

(** A table whose last row is unbounded stops every scan. *)
Lemma unbounded_table_hits (table : CategoryTable) (score : Q) :
  ends_unbounded table = true -> scan table score <> None.
Proof.
  induction table as [|[b l] rest IH]; [discriminate|].
  intros Hend. rewrite scan_cons. cbn [fst].
  destruct (JS.le score b) eqn:Hle; [discriminate|].
  destruct rest as [|row' rest'].
  - unfold ends_unbounded in Hend. cbn in Hend.
    destruct b; try discriminate.
  - apply IH. exact Hend.
Qed.

Lemma bound_ltb_trans (a b c : JS.number) :
  bound_ltb a b = true -> bound_ltb b c = true -> bound_ltb a c = true.
Proof.
  destruct a, b, c; cbn; intros H1 H2; try discriminate; try reflexivity.
  apply lt_true in H1, H2. apply lt_true. lra.
Qed.

Lemma increasing_tail (b : JS.number) (bs : list JS.number) :
  increasing (b :: bs) = true -> increasing bs = true.
Proof.
  destruct bs as [|b' bs']; [reflexivity|].
  cbn [increasing]. intros H. apply andb_true_iff in H. apply H.
Qed.

(** In an increasing sequence the head is below everything after it. *)
Lemma increasing_head_below (b : JS.number) (bs : list JS.number) :
  increasing (b :: bs) = true -> forall b', In b' bs -> bound_ltb b b' = true.
Proof.
  revert b. induction bs as [|c bs IH]; intros b Hinc b' Hin; [destruct Hin|].
  cbn [increasing] in Hinc. apply andb_true_iff in Hinc. destruct Hinc as [Hbc Hrest].
  destruct Hin as [->|Hin]; [exact Hbc|].
  apply bound_ltb_trans with c; [exact Hbc|].
  apply IH; assumption.
Qed.

(** A score does not reach a bound that lies strictly below it. *)
Lemma below_threshold_misses (b : JS.number) (t score : Q) :
  bound_ltb b (JS.Num t) = true -> score == t -> JS.le score b = false.
Proof.
  destruct b as [|x|]; cbn; intros Hlt Heq; try reflexivity; try discriminate.
  apply lt_true in Hlt. apply Qle_bool_false. lra.
Qed.

(** In a strictly increasing table a score equal to a row's bound gets
    that row's label. *)
Lemma threshold_row_wins (table : CategoryTable) :
  strictly_increasing table = true ->
  forall (t : Q) (label : string) (score : Q),
    In (JS.Num t, label) table -> score == t -> classify table score = label.
Proof.
  unfold strictly_increasing.
  induction table as [|[b l] rest IH]; intros Hinc t label score Hin Heq; [destruct Hin|].
  rewrite classify_cons. cbn [fst snd].
  destruct Hin as [Hhead|Hin].
  - inversion Hhead; subst. cbn [JS.le].
    assert (Hle : Qle_bool score t = true) by (apply Qle_bool_iff; lra).
    rewrite Hle. reflexivity.
  - cbn [map fst] in Hinc.
    assert (Hb : bound_ltb b (JS.Num t) = true).
    { apply increasing_head_below with (bs := map fst rest); [exact Hinc|].
      change (JS.Num t) with (fst (JS.Num t, label)). apply in_map. exact Hin. }
    rewrite (below_threshold_misses b t score Hb Heq).
    apply IH with (t := t);
      [apply increasing_tail with b; exact Hinc | exact Hin | exact Heq].
Qed.

Lemma category_tables_increasing :
  forallb strictly_increasing category_tables = true.
Proof. vm_compute. reflexivity. Qed.

(** The two tables that end with [Infinity] stop every scan; the fallback
    of their classifiers is dead code. *)
Lemma unbounded_tables_never_fall_back (score : Q) :
  scan Earliest.SENTIMENT_CATEGORIES score <> None
  /\ scan Nine.SENTIMENT_CATEGORIES score <> None.
Proof. split; apply unbounded_table_hits; reflexivity. Qed.

(** C1, where it fails: both tables of src/index.ts end at the bound
    0.25 instead of an unbounded one, so at score 0.3 the scan finds no row
    and the classifier takes the fallback and answers "neutral". *)
Theorem index_tables_fall_through :
  ends_unbounded Index1.SENTIMENT_CATEGORIES = false
  /\ ends_unbounded Index2.SENTIMENT_CATEGORIES = false
  /\ last (map fst Index1.SENTIMENT_CATEGORIES) JS.NegInfinity = JS.Num 0.25
  /\ last (map fst Index2.SENTIMENT_CATEGORIES) JS.NegInfinity = JS.Num 0.25
  /\ scan Index1.SENTIMENT_CATEGORIES 0.3 = None
  /\ scan Index2.SENTIMENT_CATEGORIES 0.3 = None
  /\ Index1.analyzeSentiment 0.3 = "neutral"
  /\ Index2.analyzeSentiment 0.3 = "neutral".
Proof. repeat split; reflexivity. Qed.

Lemma classify_nil (score : Q) : classify [] score = "neutral".
Proof. reflexivity. Qed.

(** Runs a table-driven classifier down its rows, one test per row. *)
Ltac run_table :=
  rewrite ?classify_cons, ?classify_nil; cbn [fst snd JS.le].

(** Unfolds the branching classifier and its comparisons. *)
Ltac run_branches := unfold JS.seq, JS.ge.

(** C9: in the second table of src/index.ts, which opens with the bound
    -Infinity and closes with 0.25, no finite score is "very mean"; every
    score up to -0.25 is "mean"; every score above 0.25 finds no row and
    gets the fallback "neutral", never "very nice". *)
Theorem index2_very_mean_unreachable (score : Q) :
  hd JS.Infinity (map fst Index2.SENTIMENT_CATEGORIES) = JS.NegInfinity
  /\ last (map fst Index2.SENTIMENT_CATEGORIES) JS.NegInfinity = JS.Num 0.25
  /\ Index2.analyzeSentiment score <> "very mean"
  /\ (score <= -0.25 -> Index2.analyzeSentiment score = "mean")
  /\ (0.25 < score ->
      scan Index2.SENTIMENT_CATEGORIES score = None
      /\ Index2.analyzeSentiment score = "neutral"
      /\ Index2.analyzeSentiment score <> "very nice").
Proof.
  split; [reflexivity|]. split; [reflexivity|].
  unfold Index2.analyzeSentiment, Index2.SENTIMENT_CATEGORIES.
  split; [|split].
  - run_table. repeat split_test; discriminate.
  - intros H. run_table. repeat split_test; by_order.
  - intros H.
    assert (Hscan : scan [ (JS.NegInfinity, "very mean"); (JS.Num (-0.25), "mean");
                           (JS.Num (-0.1), "neutral"); (JS.Num 0.1, "nice");
                           (JS.Num 0.25, "very nice") ] score = None).
    { rewrite !scan_cons. cbn [fst JS.le].
      repeat split_test; by_order. }
    split; [exact Hscan|].
    rewrite classify_scan, Hscan. split; [reflexivity | discriminate].
Qed.

Lemma index2_very_mean_unreachable_witness :
  (-1 <= -0.25 /\ Index2.analyzeSentiment (-1) = "mean")
  /\ (0.25 < 1 /\ Index2.analyzeSentiment 1 = "neutral").
Proof.
  split.
  - split; [discriminate|].
    apply (index2_very_mean_unreachable (-1)). discriminate.
  - split; [reflexivity|].
    apply (index2_very_mean_unreachable 1). reflexivity.
Defined.

(** C6: the classifier answers for every table and every finite score.
    Its answer is a label of the table or the fallback; when the scan runs
    off the end of the table the answer is "neutral"; and on each table of
    the repository the answer is always one of that table's labels. *)
Theorem classify_total (table : CategoryTable) (score : Q) :
  (In (classify table score) (map snd table) \/ classify table score = "neutral")
  /\ (scan table score = None -> classify table score = "neutral")
  /\ (forall row, scan table score = Some row -> classify table score = snd row)
  /\ (In table category_tables -> In (classify table score) (map snd table)).
Proof.
  assert (Hsome : forall row, scan table score = Some row -> classify table score = snd row).
  { intros row H. rewrite classify_scan, H. reflexivity. }
  assert (Hnone : scan table score = None -> classify table score = "neutral").
  { intros H. rewrite classify_scan, H. reflexivity. }
  assert (Hor : In (classify table score) (map snd table) \/ classify table score = "neutral").
  { destruct (scan table score) as [row|] eqn:H.
    - left. rewrite (Hsome row eq_refl). apply in_map.
      apply (scan_some table score row H).
    - right. apply Hnone. reflexivity. }
  repeat split; try assumption.
  intros Hin. destruct Hor as [H|H]; [exact H|]. rewrite H.
  unfold category_tables in Hin. cbn [In] in Hin.
  destruct Hin as [<-|[<-|[<-|[<-|[]]]]]; cbn; tauto.
Qed.

Lemma classify_total_witness :
  scan Index1.SENTIMENT_CATEGORIES 0.3 = None
  /\ classify Index1.SENTIMENT_CATEGORIES 0.3 = "neutral"
  /\ In (classify Nine.SENTIMENT_CATEGORIES 4) (map snd Nine.SENTIMENT_CATEGORIES).
Proof.
  split; [reflexivity|]. split.
  - apply (classify_total Index1.SENTIMENT_CATEGORIES 0.3). reflexivity.
  - apply (classify_total Nine.SENTIMENT_CATEGORIES 4).
    unfold category_tables. cbn [In]. tauto.
Defined.

(** C2, where it fails: the latest classifier has no bound at 0.1 and
    reserves "neutral" for the score 0, so 0.1 is "slightly positive". *)
Lemma latest_tenth_is_not_neutral :
  Latest.analyzeSentiment 0.1 = "slightly positive"
  /\ Latest.analyzeSentiment 0.1 <> "neutral".
Proof. split; [reflexivity | discriminate]. Qed.

(** C2, amended: in every table of the repository a score equal to the
    bound of a row gets the label of that row, the lower of the two
    categories that meet there; so 0.1 is "neutral" in the nine-row table.
    The latest classifier keeps the rule at each of its own bounds
    (-3, -1.5, -0.5, 0.5, 1.5, 3), answers "neutral" at 0 and for no
    other score, and has 0.1 inside "slightly positive". *)
Theorem threshold_belongs_to_lower_category :
  (forall (table : CategoryTable) (t : Q) (label : string) (score : Q),
      In table category_tables -> In (JS.Num t, label) table -> score == t ->
      classify table score = label)
  /\ (forall score : Q, score == 0.1 -> Nine.analyzeSentiment score = "neutral")
  /\ (forall score : Q,
        (score == -3 -> Latest.analyzeSentiment score = "extremely negative")
        /\ (score == -1.5 -> Latest.analyzeSentiment score = "very negative")
        /\ (score == -0.5 -> Latest.analyzeSentiment score = "negative")
        /\ (score == 0 -> Latest.analyzeSentiment score = "neutral")
        /\ (score == 0.5 -> Latest.analyzeSentiment score = "slightly positive")
        /\ (score == 1.5 -> Latest.analyzeSentiment score = "positive")
        /\ (score == 3 -> Latest.analyzeSentiment score = "very positive")
        /\ (score == 0.1 -> Latest.analyzeSentiment score = "slightly positive"))
  /\ (forall score : Q, Latest.analyzeSentiment score = "neutral" -> score == 0).
Proof.
  split; [|split; [|split]].
  - intros table t label score Htable Hrow Heq.
    apply threshold_row_wins with (t := t); [|exact Hrow|exact Heq].
    pose proof category_tables_increasing as Hall.
    rewrite forallb_forall in Hall. apply Hall. exact Htable.
  - intros score Heq. unfold Nine.analyzeSentiment.
    apply threshold_row_wins with (t := 0.1); [reflexivity| |exact Heq].
    unfold Nine.SENTIMENT_CATEGORIES. cbn [In]. tauto.
  - intros score. unfold Latest.analyzeSentiment. run_branches.
    repeat split; intros Heq; repeat split_test; by_order.
  - intros score. unfold Latest.analyzeSentiment. run_branches.
    repeat split_test; intros Hlabel; try discriminate Hlabel;
      tests_to_orders; assumption.
Qed.

Lemma threshold_belongs_to_lower_category_witness :
  In Nine.SENTIMENT_CATEGORIES category_tables
  /\ In (JS.Num 0.1, "neutral") Nine.SENTIMENT_CATEGORIES
  /\ 0.1 == 0.1
  /\ classify Nine.SENTIMENT_CATEGORIES 0.1 = "neutral".
Proof.
  assert (H1 : In Nine.SENTIMENT_CATEGORIES category_tables)
    by (unfold category_tables; cbn [In]; tauto).
  assert (H2 : In (JS.Num 0.1, "neutral") Nine.SENTIMENT_CATEGORIES)
    by (unfold Nine.SENTIMENT_CATEGORIES; cbn [In]; tauto).
  assert (H3 : 0.1 == 0.1) by reflexivity.
  split; [exact H1|]. split; [exact H2|]. split; [exact H3|].
  exact (proj1 threshold_belongs_to_lower_category
           Nine.SENTIMENT_CATEGORIES 0.1 "neutral" 0.1 H1 H2 H3).
Defined.

(** The earliest table bounds its "mean" row by 0 itself: there a score of
    exactly 0 is "mean". *)
Lemma earliest_table_zero_is_mean (score : Q) :
  score == 0 -> classify Earliest.SENTIMENT_CATEGORIES score = "mean".
Proof.
  intros Heq. apply threshold_row_wins with (t := 0); [reflexivity| |exact Heq].
  unfold Earliest.SENTIMENT_CATEGORIES. cbn [In]. tauto.
Qed.

(** C3, what the code does at 0: both tables of src/index.ts answer
    "nice", the label of their row bounded by 0.1, and the table of the
    earliest revision answers "mean", the label of its row bounded by 0
    itself; only the nine-row table and the latest classifier answer
    "neutral". *)
Theorem zero_score_category (score : Q) :
  score == 0 ->
  Nine.analyzeSentiment score = "neutral"
  /\ Latest.analyzeSentiment score = "neutral"
  /\ Index1.analyzeSentiment score = "nice"
  /\ Index2.analyzeSentiment score = "nice"
  /\ classify Earliest.SENTIMENT_CATEGORIES score = "mean".
Proof.
  intros Heq.
  split; [|split; [|split; [|split]]]; [| | | |apply earliest_table_zero_is_mean; exact Heq];
    unfold Nine.analyzeSentiment, Nine.SENTIMENT_CATEGORIES, Latest.analyzeSentiment,
      Index1.analyzeSentiment, Index1.SENTIMENT_CATEGORIES,
      Index2.analyzeSentiment, Index2.SENTIMENT_CATEGORIES;
    run_branches; run_table; repeat split_test; by_order.
Qed.

Lemma zero_score_category_witness :
  0 == 0
  /\ Nine.analyzeSentiment 0 = "neutral"
  /\ Latest.analyzeSentiment 0 = "neutral"
  /\ Index1.analyzeSentiment 0 = "nice"
  /\ Index2.analyzeSentiment 0 = "nice"
  /\ classify Earliest.SENTIMENT_CATEGORIES 0 = "mean".
Proof.
  split; [reflexivity|].
  apply (zero_score_category 0). reflexivity.
Defined.

(** ** The aggregate score *)

Lemma nonempty_length_test {A : Type} (l : list A) :
  l <> [] -> (0 <? List.length l)%nat = true.
Proof. destruct l; [congruence | reflexivity]. Qed.


(** Equal rationals are the same addend. *)
Lemma plus_comp (sum : JS.number) (x y : Q) : x == y -> JS.plus sum x = JS.plus sum y.
Proof.
  intros H. destruct sum as [|s|]; cbn [JS.plus]; try reflexivity.
  rewrite (round53_comp x y H). reflexivity.
Qed.

Lemma plus_num_comp (s t x : Q) : s == t -> JS.plus (JS.Num s) x = JS.plus (JS.Num t) x.
Proof.
  intros H. cbn [JS.plus]. f_equal. apply round53_comp. rewrite H. reflexivity.
Qed.

Lemma over_num_comp (s t : Q) (count : nat) :
  s == t -> JS.over (JS.Num s) count = JS.over (JS.Num t) count.
Proof.
  intros H. cbn [JS.over]. f_equal. apply round53_comp. rewrite H. reflexivity.
Qed.








(** ** Strings *)

Lemma append_assoc (a b c : string) : (a ++ b) ++ c = a ++ (b ++ c).
Proof. induction a as [|x a IH]; cbn; [reflexivity | now rewrite IH]. Qed.

Lemma append_empty (a : string) : a ++ "" = a.
Proof. induction a as [|x a IH]; cbn; [reflexivity | now rewrite IH]. Qed.

Lemma length_append (a b : string) :
  String.length (a ++ b) = (String.length a + String.length b)%nat.
Proof. induction a as [|x a IH]; cbn; [reflexivity | now rewrite IH]. Qed.

Lemma take_append (a b : string) : JS.take (String.length a) (a ++ b) = a.
Proof. induction a as [|x a IH]; cbn; [destruct b; reflexivity | now rewrite IH]. Qed.

Lemma drop_append (a b : string) : JS.drop (String.length a) (a ++ b) = b.
Proof. induction a as [|x a IH]; cbn; [destruct b; reflexivity | exact IH]. Qed.

(** ** Decimal digits *)

Lemma digit_cases (d : Z) :
  (0 <= d < 10)%Z ->
  d = 0%Z \/ d = 1%Z \/ d = 2%Z \/ d = 3%Z \/ d = 4%Z
  \/ d = 5%Z \/ d = 6%Z \/ d = 7%Z \/ d = 8%Z \/ d = 9%Z.
Proof. lia. Qed.

Ltac each_digit d H :=
  destruct (digit_cases d H) as [?|[?|[?|[?|[?|[?|[?|[?|[?|?]]]]]]]]]; subst d.

Lemma digit_is_digit (d : Z) : (0 <= d < 10)%Z -> is_digit (JS.digit d) = true.
Proof. intros H. each_digit d H; reflexivity. Qed.

Lemma digit_not_point (c : ascii) : is_digit c = true -> Ascii.eqb c "." = false.
Proof.
  intros H. destruct (Ascii.eqb_spec c "."); [subst; discriminate | reflexivity].
Qed.

Lemma all_digits_append (a b : string) :
  all_digits (a ++ b) = all_digits a && all_digits b.
Proof.
  induction a as [|x a IH]; cbn; [reflexivity|]. now rewrite IH, andb_assoc.
Qed.

Lemma digits_fuel_unfold (fuel : nat) (n : Z) :
  JS.digits_fuel (S fuel) n
  = if (n <? 10)%Z then String (JS.digit n) ""
    else JS.digits_fuel fuel (n / 10) ++ String (JS.digit (n mod 10)) "".
Proof. reflexivity. Qed.

(** Fuel [S f] prints every number below [2 * 2 ^ f] in full; more fuel
    changes nothing. *)
Lemma digits_fuel_enough (f1 : nat) :
  forall (f2 : nat) (n : Z),
    (0 <= n)%Z -> (n < 2 * 2 ^ Z.of_nat f1)%Z -> (n < 2 * 2 ^ Z.of_nat f2)%Z ->
    JS.digits_fuel (S f1) n = JS.digits_fuel (S f2) n.
Proof.
  induction f1 as [|f1 IH]; intros f2 n H0 H1 H2; rewrite !digits_fuel_unfold;
    destruct (n <? 10)%Z eqn:Hsmall; try reflexivity; apply Z.ltb_ge in Hsmall.
  - cbn in H1. lia.
  - destruct f2 as [|f2]; [cbn in H2; lia|].
    f_equal. apply IH.
    + apply Z.div_pos; lia.
    + rewrite Nat2Z.inj_succ, Z.pow_succ_r in H1 by lia.
      apply Z.div_lt_upper_bound; lia.
    + rewrite Nat2Z.inj_succ, Z.pow_succ_r in H2 by lia.
      apply Z.div_lt_upper_bound; lia.
Qed.

Lemma log2_fuel (n : Z) : (0 <= n)%Z -> (n < 2 * 2 ^ Z.of_nat (Z.to_nat (Z.log2 n)))%Z.
Proof.
  intros H. rewrite Z2Nat.id by apply Z.log2_nonneg.
  destruct (Z.eq_dec n 0) as [->|Hn]; [cbn; lia|].
  pose proof (Z.log2_spec n ltac:(lia)) as [_ Hup].
  rewrite Z.pow_succ_r in Hup by apply Z.log2_nonneg. exact Hup.
Qed.

Lemma decimal_small (n : Z) : (0 <= n < 10)%Z -> JS.decimal n = String (JS.digit n) "".
Proof.
  intros H. unfold JS.decimal. rewrite digits_fuel_unfold.
  destruct (n <? 10)%Z eqn:E; [reflexivity | apply Z.ltb_ge in E; lia].
Qed.

(** The last digit comes off a number of two digits or more. *)
Lemma decimal_step (n : Z) :
  (10 <= n)%Z -> JS.decimal n = JS.decimal (n / 10) ++ String (JS.digit (n mod 10)) "".
Proof.
  intros H. unfold JS.decimal at 1. rewrite digits_fuel_unfold.
  destruct (n <? 10)%Z eqn:E; [apply Z.ltb_lt in E; lia|]. f_equal.
  assert (Hlog : (3 <= Z.log2 n)%Z).
  { apply Z.log2_le_pow2; [lia|]. cbn. lia. }
  destruct (Z.to_nat (Z.log2 n)) as [|f] eqn:Hf; [lia|].
  unfold JS.decimal. apply digits_fuel_enough.
  - apply Z.div_pos; lia.
  - pose proof (log2_fuel n ltac:(lia)) as Hup. rewrite Hf in Hup.
    rewrite Nat2Z.inj_succ, Z.pow_succ_r in Hup by lia.
    apply Z.div_lt_upper_bound; lia.
  - apply log2_fuel. apply Z.div_pos; lia.
Qed.

Lemma digits_fuel_all_digits (fuel : nat) :
  forall n : Z, (0 <= n)%Z -> all_digits (JS.digits_fuel fuel n) = true.
Proof.
  induction fuel as [|fuel IH]; intros n H; [reflexivity|].
  rewrite digits_fuel_unfold. destruct (n <? 10)%Z eqn:E.
  - apply Z.ltb_lt in E. cbn [all_digits]. rewrite digit_is_digit by lia. reflexivity.
  - rewrite all_digits_append, IH by (apply Z.div_pos; lia).
    cbn [all_digits]. rewrite digit_is_digit; [reflexivity|].
    apply Z.mod_pos_bound. lia.
Qed.

Lemma decimal_all_digits (n : Z) : (0 <= n)%Z -> all_digits (JS.decimal n) = true.
Proof. apply digits_fuel_all_digits. Qed.

Lemma decimal_nonempty (n : Z) : (1 <= String.length (JS.decimal n))%nat.
Proof.
  unfold JS.decimal. rewrite digits_fuel_unfold.
  destruct (n <? 10)%Z; [cbn; lia|]. rewrite length_append. cbn. lia.
Qed.

(** ** The trailing-zero pattern *)

Lemma zeros_to_end_cons (c : ascii) (rest : string) :
  rest <> "" -> JS.zeros_to_end (String c rest) = Ascii.eqb c "0" && JS.zeros_to_end rest.
Proof. destruct rest; [congruence | reflexivity]. Qed.

(** A string with a point in it is not a run of zeros. *)
Lemma zeros_to_end_point (a b : string) : JS.zeros_to_end (a ++ String "." b) = false.
Proof.
  induction a as [|c a IH].
  - cbn. destruct b; reflexivity.
  - cbn [append]. rewrite zeros_to_end_cons, IH by (destruct a; discriminate).
    apply andb_false_r.
Qed.

(** Within the integer digits the pattern cannot start: the match would
    have to run over the point. *)
Lemma replace_keeps_integer_digits (a b : string) :
  all_digits a = true ->
  JS.replace_trailing_zeros (a ++ String "." b)
  = a ++ JS.replace_trailing_zeros (String "." b).
Proof.
  induction a as [|c a IH]; intros Hd; [reflexivity|].
  cbn [all_digits] in Hd. apply andb_true_iff in Hd. destruct Hd as [Hc Ha].
  cbn [append]. cbn [JS.replace_trailing_zeros JS.trailing_zeros_at].
  rewrite (digit_not_point c Hc).
  change (String c (a ++ String "." b)) with (String c a ++ String "." b).
  rewrite zeros_to_end_point. cbn [append]. rewrite IH by exact Ha. reflexivity.
Qed.

(** Nor can it start at a leading minus sign. *)
Lemma replace_keeps_minus (m : string) :
  JS.replace_trailing_zeros (String "-" m) = String "-" (JS.replace_trailing_zeros m).
Proof.
  cbn [JS.replace_trailing_zeros JS.trailing_zeros_at].
  change (Ascii.eqb "-" ".") with false. cbv iota.
  destruct m; reflexivity.
Qed.

(** What the pattern leaves of a point and two decimals. *)
Lemma replace_two_decimals (d1 d2 : Z) :
  (0 <= d1 < 10)%Z -> (0 <= d2 < 10)%Z ->
  JS.replace_trailing_zeros (String "." (String (JS.digit d1) (String (JS.digit d2) "")))
  = if (10 * d1 + d2 =? 0)%Z then ""
    else if (d2 =? 0)%Z then String "." (String (JS.digit d1) "")
         else String "." (String (JS.digit d1) (String (JS.digit d2) "")).
Proof.
  intros H1 H2. each_digit d1 H1; each_digit d2 H2; reflexivity.
Qed.

(** ** toFixed(2) *)

Lemma hundredths_nonneg (x : Q) : 0 <= x -> (0 <= hundredths x)%Z.
Proof.
  intros H. unfold hundredths.
  change 0%Z with (Qfloor 0). apply Qfloor_resp_le. lra.
Qed.

(** The digits [toFixed] produces from the rounded count of hundredths. *)
Lemma pad_and_point (n : Z) :
  (0 <= n)%Z ->
  (let m := if (n =? 0)%Z then "0" else JS.decimal n in
   let k := String.length m in
   let m' := if (k <=? 2)%nat then JS.repeat0 (2 + 1 - k) ++ m else m in
   let k' := if (k <=? 2)%nat then (2 + 1)%nat else k in
   JS.take (k' - 2) m' ++ "." ++ JS.drop (k' - 2) m') = two_decimals n.
Proof.
  intros H. unfold two_decimals.
  assert (Hm : (if (n =? 0)%Z then "0" else JS.decimal n) = JS.decimal n).
  { destruct (n =? 0)%Z eqn:E; [apply Z.eqb_eq in E; subst; reflexivity | reflexivity]. }
  rewrite Hm. cbv zeta.
  destruct (Z_lt_le_dec n 10) as [Hlt10|Hge10].
  - rewrite (decimal_small n) by lia.
    rewrite (Z.div_small n 100), (Z.div_small n 10), (Z.mod_small n 10) by lia.
    reflexivity.
  - rewrite (decimal_step n Hge10).
    destruct (Z_lt_le_dec n 100) as [Hlt100|Hge100].
    + rewrite (decimal_small (n / 10)) by (split; [apply Z.div_pos | apply Z.div_lt_upper_bound]; lia).
      rewrite (Z.div_small n 100), (Z.mod_small (n / 10) 10)
        by (try split; try apply Z.div_pos; try apply Z.div_lt_upper_bound; lia).
      reflexivity.
    + rewrite (decimal_step (n / 10)) by (apply Z.div_le_lower_bound; lia).
      rewrite Z.div_div by lia. change (10 * 10)%Z with 100%Z.
      set (a := JS.decimal (n / 100)).
      set (d1 := JS.digit ((n / 10) mod 10)). set (d2 := JS.digit (n mod 10)).
      rewrite append_assoc. cbn [append].
      pose proof (decimal_nonempty (n / 100)) as Hlen. fold a in Hlen.
      rewrite length_append. cbn [String.length].
      destruct (String.length a + 2 <=? 2)%nat eqn:E; [apply Nat.leb_le in E; lia|].
      replace (String.length a + 2 - 2)%nat with (String.length a) by lia.
      rewrite take_append, drop_append. reflexivity.
Qed.

Section FixedNotation.

Variable NumberToString : Q -> string.

(** Below 10^21 a non-negative number prints as its hundredths. *)
Lemma toFixed_nonneg (x : Q) :
  0 <= x -> x < inject_Z (10 ^ 21) ->
  JS.toFixed NumberToString x 2 = two_decimals (hundredths x).
Proof.
  intros H0 Hbig. unfold JS.toFixed.
  assert (Hlt : JS.lt x 0 = false) by (apply lt_false; exact H0).
  rewrite Hlt.
  assert (Hge : JS.ge x (inject_Z (10 ^ 21)) = false)
    by (unfold JS.ge; apply Qle_bool_false; exact Hbig).
  rewrite Hge. cbn [append].
  apply (pad_and_point (hundredths x)). apply hundredths_nonneg. exact H0.
Qed.

(** A negative number prints as a minus sign and its magnitude. *)
Lemma toFixed_neg (x : Q) :
  x < 0 -> - x < inject_Z (10 ^ 21) ->
  JS.toFixed NumberToString x 2 = String "-" (two_decimals (hundredths (- x))).
Proof.
  intros H0 Hbig. unfold JS.toFixed.
  assert (Hlt : JS.lt x 0 = true) by (apply lt_true; exact H0).
  rewrite Hlt.
  assert (Hge : JS.ge (- x) (inject_Z (10 ^ 21)) = false)
    by (unfold JS.ge; apply Qle_bool_false; exact Hbig).
  rewrite Hge. cbn [append]. f_equal.
  apply (pad_and_point (hundredths (- x))). apply hundredths_nonneg. lra.
Qed.

End FixedNotation.

(** Stripping the printed hundredths gives the format of the
    specification. *)
Lemma replace_two_decimals_stripped (n : Z) :
  (0 <= n)%Z -> JS.replace_trailing_zeros (two_decimals n) = two_decimals_stripped n.
Proof.
  intros H. unfold two_decimals, two_decimals_stripped.
  rewrite replace_keeps_integer_digits
    by (apply decimal_all_digits; apply Z.div_pos; lia).
  f_equal.
  rewrite replace_two_decimals by (apply Z.mod_pos_bound; lia).
  replace (10 * ((n / 10) mod 10) + n mod 10)%Z with (n mod 100)%Z; [reflexivity|].
  change 100%Z with (10 * 10)%Z. rewrite Z.rem_mul_r by lia. lia.
Qed.

Lemma hundredths_comp (x y : Q) : x == y -> hundredths x = hundredths y.
Proof. intros H. unfold hundredths. rewrite H. reflexivity. Qed.

(** [formatScore] meets the format of the specification below 10^21. *)
Lemma formatScore_stripped (NumberToString : Q -> string) (score : Q) :
  Qabs score < inject_Z (10 ^ 21) ->
  Nine.formatScore NumberToString score = signed_two_decimals_stripped score.
Proof.
  intros Hbig. unfold Nine.formatScore, signed_two_decimals_stripped, JS.ge.
  destruct (Qle_bool 0 score) eqn:Hsign; tests_to_orders.
  - rewrite (Qabs_pos score Hsign) in Hbig.
    rewrite (hundredths_comp _ _ (Qabs_pos score Hsign)).
    rewrite toFixed_nonneg by assumption.
    rewrite replace_two_decimals_stripped by (apply hundredths_nonneg; exact Hsign).
    reflexivity.
  - assert (Hle : score <= 0) by lra.
    rewrite (Qabs_neg score Hle) in Hbig.
    rewrite (hundredths_comp _ _ (Qabs_neg score Hle)).
    rewrite toFixed_neg by assumption.
    rewrite replace_keeps_minus.
    rewrite replace_two_decimals_stripped by (apply hundredths_nonneg; lra).
    reflexivity.
Qed.

Ltac bracketed label := eexists _, label, _; reflexivity.

(** The reply of the nine-row composer carries [formatScore score]
    between "Your sentiment score is " and the bracketed label. *)
Lemma nine_reply_shape (NumberToString : Q -> string)
  (username : string) (score : Q) (postCount : Z) :
  exists message label suggestion : string,
    Nine.generateSentimentResponse NumberToString username score postCount
    = Some (Nine.getSentimentEmoji score ++ " Hey @" ++ username ++ "! " ++ message ++ " "
            ++ ("Your sentiment score is " ++ Nine.formatScore NumberToString score
                ++ " (" ++ label ++ ").")
            ++ " " ++ suggestion).
Proof.
  unfold Nine.generateSentimentResponse.
  generalize (Nine.formatScore NumberToString score) as shown.
  generalize (Nine.getSentimentEmoji score) as emoji.
  intros emoji shown.
  unfold Nine.analyzeSentiment, Nine.SENTIMENT_CATEGORIES. run_table.
  repeat split_test;
    cbn [Nine.property Nine.responses String.eqb Ascii.eqb Bool.eqb
         Nine.message Nine.detail Nine.suggestion];
    [ bracketed "extremely negative" | bracketed "very negative"
    | bracketed "negative" | bracketed "slightly negative"
    | bracketed "perfectly balanced" | bracketed "slightly positive"
    | bracketed "positive" | bracketed "very positive"
    | bracketed "extremely positive" ].
Qed.

(** ** The latest composer *)

Lemma bind_run {A B : Type} (m : Random.M A) (k : A -> Random.M B) (src : Random.source) :
  Random.bind m k src = k (fst (m src)) (snd (m src)).
Proof. unfold Random.bind. destruct (m src). reflexivity. Qed.

Lemma item_run (pool : list string) (src : Random.source) :
  Latest.getRandomArrayItem pool src
  = (JS.at_floor pool (JS.times (src O) (JS.length_of pool)), fun i => src (S i)).
Proof. reflexivity. Qed.

(** The message always comes out of one draw from one pool. *)
Lemma message_from_pool (score : Q) :
  exists pool, Latest.getSentimentMessage score = Latest.getRandomArrayItem pool.
Proof.
  unfold Latest.getSentimentMessage. run_branches.
  repeat split_test; eexists; reflexivity.
Qed.

(** So does the suggestion, unless it is the whole neutral pool. *)
Lemma suggestion_from_pool (score : Q) :
  (exists pool, Latest.getSentimentSuggestion score = Latest.getRandomArrayItem pool)
  \/ Latest.getSentimentSuggestion score = Random.ret (JS.Arr Latest.neutralSuggestions).
Proof.
  unfold Latest.getSentimentSuggestion. run_branches.
  repeat split_test; (right; reflexivity) || (left; eexists; reflexivity).
Qed.

(** The six pieces of the reply; only two of them see the source. *)
Lemma latest_reply_shape (NumberToString : Q -> string)
  (username : string) (score : Q) (src : Random.source) :
  exists message suggestion : string,
    fst (Latest.generateSentimentResponse NumberToString username score src)
    = Latest.reply (Latest.getSentimentEmoji score) username message
        (JS.toFixed NumberToString score 2) (Latest.analyzeSentiment score) suggestion.
Proof.
  unfold Latest.generateSentimentResponse. cbv zeta.
  rewrite !bind_run. unfold Random.ret. cbn [fst]. eexists _, _. reflexivity.
Qed.

Lemma round53_zero : JS.round53 0 = 0.
Proof. vm_compute. reflexivity. Qed.

Lemma zero_draw_index (pool : list string) (r : Q) :
  r == 0 -> JS.times r (JS.length_of pool) = JS.Num 0.
Proof.
  intros H. unfold JS.times.
  rewrite (round53_comp r 0 H), round53_zero.
  rewrite (round53_comp (0 * JS.length_of pool) 0) by ring.
  rewrite round53_zero. reflexivity.
Qed.

Lemma always_zero_shift (src : Random.source) :
  Random.always_zero src -> Random.always_zero (fun i => src (S i)).
Proof. intros H i. apply H. Qed.

(** With a source of zeros the reply is one fixed string, and what is
    left of the source is again a source of zeros. *)
Lemma zero_source_reply (NumberToString : Q -> string) (username : string) (score : Q) :
  exists out : string,
    forall src : Random.source,
      Random.always_zero src ->
      fst (Latest.generateSentimentResponse NumberToString username score src) = out
      /\ Random.always_zero
           (snd (Latest.generateSentimentResponse NumberToString username score src)).
Proof.
  unfold Latest.generateSentimentResponse. cbv zeta.
  destruct (message_from_pool score) as [mpool Hm]. rewrite Hm.
  destruct (suggestion_from_pool score) as [[spool Hs]|Hs]; rewrite Hs;
    eexists; intros src Hz; rewrite !bind_run, !item_run;
    unfold Random.ret; cbn [fst snd];
    rewrite ?zero_draw_index by (apply Hz);
    (split; [reflexivity|]);
    intros i; apply Hz.
Qed.

(** C7, where it fails: the latest composer interpolates
    [score.toFixed(2)] as it is.  At 1.5 the reply reads "1.50", with the
    trailing zero and without a sign, not "+1.5". *)
Lemma latest_score_keeps_zeros :
  fst (Latest.generateSentimentResponse unreached "bob" 1.5 zero_source)
  = "😊 Hey @bob! Your posts are seriously uplifting to read. Your sentiment score is 1.50 (positive). Your posts are super positive! Maybe share what specifically got you so excited?"
  /\ fst (Latest.generateSentimentResponse unreached "bob" 1.5 zero_source)
     <> "😊 Hey @bob! Your posts are seriously uplifting to read. Your sentiment score is +1.5 (positive). Your posts are super positive! Maybe share what specifically got you so excited?"
  /\ JS.toFixed unreached 1.5 2 <> "+1.5".
Proof.
  split; [vm_compute; reflexivity|].
  split; vm_compute; discriminate.
Qed.

(** C7, amended: in the composer that defines [formatScore] the score in
    the reply is rounded to two decimals, loses the trailing zeros of its
    decimals (and the point when both are zero) and always carries a sign,
    for every score of magnitude below 10^21; 1.5 reads "+1.5", -2 reads
    "-2" and 0 reads "+0".  The latest composer writes [score.toFixed(2)]
    unchanged: two decimals always, a sign only when negative; 1.5 reads
    "1.50", -2 reads "-2.00" and 0 reads "0.00". *)
Theorem score_format_by_composer (NumberToString : Q -> string) :
  (forall score : Q,
      Qabs score < inject_Z (10 ^ 21) ->
      Nine.formatScore NumberToString score = signed_two_decimals_stripped score)
  /\ (forall (username : string) (score : Q) (postCount : Z),
         exists message label suggestion : string,
           Nine.generateSentimentResponse NumberToString username score postCount
           = Some (Nine.getSentimentEmoji score ++ " Hey @" ++ username ++ "! "
                   ++ message ++ " "
                   ++ ("Your sentiment score is " ++ Nine.formatScore NumberToString score
                       ++ " (" ++ label ++ ").")
                   ++ " " ++ suggestion))
  /\ Nine.formatScore NumberToString 1.5 = "+1.5"
  /\ Nine.formatScore NumberToString (-2) = "-2"
  /\ Nine.formatScore NumberToString 0 = "+0"
  /\ (forall (username : string) (score : Q) (src : Random.source),
         exists message suggestion : string,
           fst (Latest.generateSentimentResponse NumberToString username score src)
           = Latest.reply (Latest.getSentimentEmoji score) username message
               (JS.toFixed NumberToString score 2) (Latest.analyzeSentiment score)
               suggestion)
  /\ JS.toFixed NumberToString 1.5 2 = "1.50"
  /\ JS.toFixed NumberToString (-2) 2 = "-2.00"
  /\ JS.toFixed NumberToString 0 2 = "0.00".
Proof.
  split; [intros score; apply formatScore_stripped|].
  split; [intros username score postCount; apply nine_reply_shape|].
  do 3 (split; [reflexivity|]).
  split; [intros username score src; apply latest_reply_shape|].
  repeat split.
Qed.

Lemma score_format_by_composer_witness :
  Qabs 1.5 < inject_Z (10 ^ 21)
  /\ Nine.formatScore unreached 1.5 = signed_two_decimals_stripped 1.5.
Proof.
  assert (H : Qabs 1.5 < inject_Z (10 ^ 21)) by reflexivity.
  split; [exact H|].
  exact (proj1 (score_format_by_composer unreached) 1.5 H).
Defined.

(** C8: the latest composer with a source that only returns 0 gives the
    same reply when called again with the same handle and score, the
    second call drawing from what the first one left; and whatever two
    sources return, the two replies are built from the same emoji, the
    same formatted score and the same category, and differ at most in
    the message and the suggestion. *)
Theorem fixed_randomness_fixes_reply
  (NumberToString : Q -> string) (username : string) (score : Q) :
  (forall src : Random.source,
      Random.always_zero src ->
      fst (Latest.generateSentimentResponse NumberToString username score src)
      = fst (Latest.generateSentimentResponse NumberToString username score
               (snd (Latest.generateSentimentResponse NumberToString username score src))))
  /\ (forall src1 src2 : Random.source,
         exists message1 suggestion1 message2 suggestion2 : string,
           fst (Latest.generateSentimentResponse NumberToString username score src1)
           = Latest.reply (Latest.getSentimentEmoji score) username message1
               (JS.toFixed NumberToString score 2) (Latest.analyzeSentiment score)
               suggestion1
           /\ fst (Latest.generateSentimentResponse NumberToString username score src2)
              = Latest.reply (Latest.getSentimentEmoji score) username message2
                  (JS.toFixed NumberToString score 2) (Latest.analyzeSentiment score)
                  suggestion2).
Proof.
  split.
  - intros src Hz.
    destruct (zero_source_reply NumberToString username score) as [out Hout].
    destruct (Hout src Hz) as [H1 Hz'].
    destruct (Hout _ Hz') as [H2 _].
    rewrite H1, H2. reflexivity.
  - intros src1 src2.
    destruct (latest_reply_shape NumberToString username score src1) as [m1 [s1 H1]].
    destruct (latest_reply_shape NumberToString username score src2) as [m2 [s2 H2]].
    exists m1, s1, m2, s2. split; assumption.
Qed.

Lemma zero_source_always_zero : Random.always_zero zero_source.
Proof. intros i. reflexivity. Qed.

Lemma fixed_randomness_fixes_reply_witness :
  Random.always_zero zero_source
  /\ fst (Latest.generateSentimentResponse unreached "bob" 1.5 zero_source)
     = fst (Latest.generateSentimentResponse unreached "bob" 1.5
              (snd (Latest.generateSentimentResponse unreached "bob" 1.5 zero_source))).
Proof.
  split; [exact zero_source_always_zero|].
  exact (proj1 (fixed_randomness_fixes_reply unreached "bob" 1.5)
           zero_source zero_source_always_zero).
Defined.

(** A finite number below [2^1024] in magnitude is itself. *)
Lemma overflow_within (q : Q) (bound : Z) :
  0 <= q -> q < inject_Z bound -> (bound <= 2 ^ 1024)%Z -> JS.overflow q = JS.Num q.
Proof.
  intros H0 H1 Hb. unfold JS.overflow.
  assert (Hq : q < inject_Z (2 ^ 1024)).
  { apply Qlt_le_trans with (inject_Z bound); [exact H1|]. rewrite <- Zle_Qle. exact Hb. }
  assert (Hneg : - inject_Z (2 ^ 1024) < 0) by reflexivity.
  destruct (Qle_bool (inject_Z (2 ^ 1024)) q) eqn:E1; [apply Qle_bool_iff in E1; lra|].
  destruct (Qle_bool q (- inject_Z (2 ^ 1024))) eqn:E2; [apply Qle_bool_iff in E2; lra|].
  reflexivity.
Qed.

(** A draw of [Math.random] indexes a phrase of a non-empty pool: the
    product, rounded as it is, stays below the length. *)
Lemma item_in_pool (pool : list string) (r : Q) :
  pool <> [] -> (Z.of_nat (List.length pool) < 2 ^ 53)%Z ->
  0 <= r -> r <= JS.below_one ->
  exists phrase : string,
    JS.at_floor pool (JS.times r (JS.length_of pool)) = JS.Str phrase /\ In phrase pool.
Proof.
  intros Hne Hshort H0 H1. unfold JS.times, JS.length_of.
  set (len := Z.of_nat (List.length pool)) in *.
  assert (Hlen : (1 <= len)%Z) by (destruct pool; [congruence | subst len; cbn; lia]).
  destruct (draw_rounds_within r H0 H1) as [Hd0 Hd1].
  destruct (scaled_draw_below_length (JS.round53 r) len Hd0 Hd1 Hlen Hshort) as [Hx0 Hx1].
  set (x := JS.round53 (JS.round53 r * inject_Z len)) in *.
  rewrite (overflow_within x len Hx0 Hx1)
    by (apply Z.le_trans with (2 ^ 53)%Z; [lia | apply Z.pow_le_mono_r; lia]).
  cbn [JS.at_floor]. unfold JS.index, JS.Math_floor.
  set (i := Qfloor x).
  assert (Hi0 : (0 <= i)%Z).
  { change 0%Z with (Qfloor 0). apply Qfloor_resp_le. exact Hx0. }
  assert (Hi1 : (i < len)%Z).
  { rewrite Zlt_Qlt. apply Qle_lt_trans with x; [apply Qfloor_le | exact Hx1]. }
  destruct (i <? 0)%Z eqn:E; [apply Z.ltb_lt in E; lia|].
  destruct (nth_error pool (Z.to_nat i)) as [phrase|] eqn:Hnth.
  - exists phrase. split; [reflexivity|]. apply nth_error_In with (Z.to_nat i). exact Hnth.
  - apply nth_error_None in Hnth. subst len. lia.
Qed.

Ltac in_band :=
  repeat split; intros;
  repeat match goal with H : _ /\ _ |- _ => destruct H end;
  first [assumption | exfalso; lra].

(** Names the phrase the draw at the head of [src] picks from the pool
    the goal indexes. *)
Ltac draw_from src H0 H1 phrase Hphrase Hin :=
  match goal with
  | |- context [JS.at_floor ?pool _] =>
      destruct (item_in_pool pool (src O) ltac:(discriminate) ltac:(reflexivity) H0 H1)
        as [phrase [Hphrase Hin]]
  end.

(** C10: in the latest composer the suggestion for a score of exactly 0
    is the whole array of ten neutral suggestions, taken without a draw,
    and the reply ends with all ten joined by commas where one suggestion
    belongs; for every other score, with the draws of [Math.random], it is
    one phrase of the pool of the band the score lies in. *)
Theorem zero_score_suggests_whole_pool
  (NumberToString : Q -> string) (username : string) (score : Q) (src : Random.source) :
  (score == 0 ->
   Latest.getSentimentSuggestion score src = (JS.Arr Latest.neutralSuggestions, src)
   /\ List.length Latest.neutralSuggestions = 10%nat
   /\ JS.ToString (JS.Arr Latest.neutralSuggestions)
      = "Your posts are pretty neutral - try adding some personality.,Show a bit more of your authentic feelings next time.,Your tone is balanced, but don't be afraid to express more emotion.,Consider adding more colour to your posts to stand out.,Your neutrality is fine, but people connect more with emotional content.,Try injecting some enthusiasm into your next post.,Your posts are safe, but sometimes taking a stance connects better.,Being neutral is fine, but showing passion can be more engaging.,Consider whether your balanced approach is actually what you intend.,A bit more expressiveness might make your posts more memorable."
   /\ exists message : string,
       fst (Latest.generateSentimentResponse NumberToString username score src)
       = "😐 Hey @" ++ username ++ "! " ++ message
         ++ " Your sentiment score is 0.00 (neutral). "
         ++ "Your posts are pretty neutral - try adding some personality.,Show a bit more of your authentic feelings next time.,Your tone is balanced, but don't be afraid to express more emotion.,Consider adding more colour to your posts to stand out.,Your neutrality is fine, but people connect more with emotional content.,Try injecting some enthusiasm into your next post.,Your posts are safe, but sometimes taking a stance connects better.,Being neutral is fine, but showing passion can be more engaging.,Consider whether your balanced approach is actually what you intend.,A bit more expressiveness might make your posts more memorable."
       /\ (Random.in_unit_interval src -> In message Latest.neutral))
  /\ (~ score == 0 -> Random.in_unit_interval src ->
      exists phrase : string,
        fst (Latest.getSentimentSuggestion score src) = JS.Str phrase
        /\ (score <= -3 -> In phrase Latest.extremelyNegativeSuggestions)
        /\ (-3 < score /\ score <= -1.5 -> In phrase Latest.veryNegativeSuggestions)
        /\ (-1.5 < score /\ score <= -0.5 -> In phrase Latest.moderatelyNegativeSuggestions)
        /\ (-0.5 < score /\ score < 0 -> In phrase Latest.slightlyNegativeSuggestions)
        /\ (0 < score /\ score < 0.5 -> In phrase Latest.slightlyPositiveSuggestions)
        /\ (0.5 <= score /\ score < 1.5 -> In phrase Latest.moderatelyPositiveSuggestions)
        /\ (1.5 <= score /\ score < 3 -> In phrase Latest.veryPositiveSuggestions)
        /\ (3 <= score -> In phrase Latest.extremelyPositiveSuggestions)).
Proof.
  split.
  - intros Heq.
    assert (Hzero : JS.seq score 0 = true) by (apply Qeq_bool_iff; exact Heq).
    assert (Hs : forall rest : Random.source,
               Latest.getSentimentSuggestion score rest
               = (JS.Arr Latest.neutralSuggestions, rest)).
    { intros rest. unfold Latest.getSentimentSuggestion. rewrite Hzero. reflexivity. }
    split; [apply Hs|]. split; [reflexivity|]. split; [reflexivity|].
    assert (Hfixed : JS.toFixed NumberToString score 2 = "0.00").
    { rewrite toFixed_nonneg; [|lra|rewrite Heq; reflexivity].
      rewrite (hundredths_comp score 0 Heq). reflexivity. }
    assert (Hm : Latest.getSentimentMessage score = Latest.getRandomArrayItem Latest.neutral).
    { unfold Latest.getSentimentMessage. rewrite Hzero. reflexivity. }
    exists (JS.ToString (fst (Latest.getRandomArrayItem Latest.neutral src))).
    split.
    + unfold Latest.generateSentimentResponse. cbv zeta.
      rewrite Hfixed, Hm. unfold Latest.analyzeSentiment, Latest.getSentimentEmoji.
      rewrite Hzero. rewrite !bind_run. rewrite Hs.
      unfold Random.ret. cbn [fst snd]. reflexivity.
    + intros Hunit. destruct (Hunit O) as [H0 H1].
      rewrite item_run. cbn [fst].
      draw_from src H0 H1 phrase Hphrase Hin.
      rewrite Hphrase. exact Hin.
  - intros Hne Hunit. destruct (Hunit O) as [H0 H1].
    assert (Hzero : JS.seq score 0 = false).
    { unfold JS.seq. destruct (Qeq_bool score 0) eqn:E; [|reflexivity].
      apply Qeq_bool_iff in E. contradiction. }
    unfold Latest.getSentimentSuggestion. rewrite Hzero. unfold JS.ge.
    repeat split_test; rewrite item_run; cbn [fst]; tests_to_orders;
      draw_from src H0 H1 phrase Hphrase Hin;
      exists phrase; (split; [exact Hphrase|]); in_band.
Qed.

Lemma half_source_in_unit_interval : Random.in_unit_interval half_source.
Proof. intros i. split; discriminate. Qed.

Lemma zero_score_suggests_whole_pool_witness :
  (0 == 0
   /\ Latest.getSentimentSuggestion 0 zero_source
      = (JS.Arr Latest.neutralSuggestions, zero_source))
  /\ (~ 1 == 0 /\ Random.in_unit_interval half_source
      /\ exists phrase : string,
          fst (Latest.getSentimentSuggestion 1 half_source) = JS.Str phrase
          /\ In phrase Latest.moderatelyPositiveSuggestions).
Proof.
  assert (Hzero : 0 == 0) by reflexivity.
  assert (Hone : ~ 1 == 0) by discriminate.
  split.
  - split; [exact Hzero|].
    exact (proj1 (proj1 (zero_score_suggests_whole_pool unreached "bob" 0 zero_source) Hzero)).
  - split; [exact Hone|]. split; [exact half_source_in_unit_interval|].
    destruct (proj2 (zero_score_suggests_whole_pool unreached "bob" 1 half_source)
                Hone half_source_in_unit_interval)
      as [phrase [Hphrase [_ [_ [_ [_ [_ [Hband _]]]]]]]].
    exists phrase. split; [exact Hphrase|].
    apply Hband. split; [discriminate | reflexivity].
Defined.

(** * Further properties of the engine *)

(** ** Bands of a table *)

Lemma le_monotone (s1 s2 : Q) (b : JS.number) :
  s1 <= s2 -> JS.le s2 b = true -> JS.le s1 b = true.
Proof.
  destruct b as [|t|]; cbn; intros H12 H2; try discriminate; try reflexivity.
  apply Qle_bool_iff in H2. apply Qle_bool_iff. lra.
Qed.

(** A score above a bound is above every smaller bound. *)
Lemma above_smaller_bound (b lower : JS.number) (score : Q) :
  bound_ltb b lower = true -> JS.le score lower = false -> JS.le score b = false.
Proof.
  destruct b as [|x|], lower as [|t|]; cbn; intros Hlt Hle;
    try discriminate; try reflexivity.
  apply lt_true in Hlt. apply Qle_bool_false in Hle. apply Qle_bool_false. lra.
Qed.

Lemma increasing_prefix_below (pre : list JS.number) (b : JS.number) (post : list JS.number) :
  increasing (pre ++ b :: post)%list = true -> forall x, In x pre -> bound_ltb x b = true.
Proof.
  induction pre as [|a pre IH]; intros Hinc x Hin; [destruct Hin|].
  destruct Hin as [->|Hin].
  - apply increasing_head_below with (bs := (pre ++ b :: post)%list); [exact Hinc|].
    apply in_or_app. right. left. reflexivity.
  - apply IH; [|exact Hin]. apply increasing_tail with a. exact Hinc.
Qed.

Lemma classify_skips (pre rest : CategoryTable) (score : Q) :
  (forall row, In row pre -> JS.le score (fst row) = false) ->
  classify (pre ++ rest)%list score = classify rest score.
Proof.
  induction pre as [|row pre IH]; intros Hmiss; [reflexivity|].
  cbn [app]. rewrite classify_cons, (Hmiss row) by (left; reflexivity).
  apply IH. intros r Hr. apply Hmiss. right. exact Hr.
Qed.

(** X1: in a strictly increasing table, a score above the bound of one
    row and not above the bound of the next gets the label of the next:
    the rows cut the line into bands, open below and closed above. *)
Theorem band_decides_category
  (pre post : CategoryTable) (lower upper : JS.number) (below label : string) (score : Q) :
  strictly_increasing (pre ++ (lower, below) :: (upper, label) :: post)%list = true ->
  JS.le score lower = false ->
  JS.le score upper = true ->
  classify (pre ++ (lower, below) :: (upper, label) :: post)%list score = label.
Proof.
  unfold strictly_increasing. intros Hinc Hlow Hup.
  rewrite map_app in Hinc. cbn [map fst] in Hinc.
  rewrite classify_skips.
  - rewrite !classify_cons. cbn [fst snd]. rewrite Hlow, Hup. reflexivity.
  - intros row Hrow. apply above_smaller_bound with lower; [|exact Hlow].
    apply (increasing_prefix_below (map fst pre) lower (upper :: map fst post) Hinc).
    apply in_map. exact Hrow.
Qed.

Lemma band_decides_category_witness :
  classify Nine.SENTIMENT_CATEGORIES 0.3 = "slightly positive".
Proof.
  exact (band_decides_category
           [ (JS.Num (-3), "extremely negative"); (JS.Num (-1.5), "very negative");
             (JS.Num (-0.5), "negative"); (JS.Num (-0.1), "slightly negative") ]
           [ (JS.Num 1.5, "positive"); (JS.Num 3, "very positive");
             (JS.Infinity, "extremely positive") ]
           (JS.Num 0.1) (JS.Num 0.5) "neutral" "slightly positive" 0.3
           eq_refl eq_refl eq_refl).
Defined.

(** X2: the scan stops at the row [scan_index] counts, and a larger score
    never stops earlier: categories follow the order of the scores, the
    scores that fall off the end of a table being the largest. *)
Theorem scan_index_monotone (table : CategoryTable) (s1 s2 : Q) :
  scan table s1 = nth_error table (scan_index table s1)
  /\ (s1 <= s2 -> (scan_index table s1 <= scan_index table s2)%nat).
Proof.
  split.
  - induction table as [|row rest IH]; [reflexivity|].
    rewrite scan_cons. cbn [scan_index].
    destruct (JS.le s1 (fst row)); [reflexivity | exact IH].
  - intros H12. induction table as [|row rest IH]; [apply Nat.le_refl|].
    cbn [scan_index].
    destruct (JS.le s2 (fst row)) eqn:H2.
    + rewrite (le_monotone s1 s2 (fst row) H12 H2). apply Nat.le_refl.
    + destruct (JS.le s1 (fst row)); [apply Nat.le_0_l | apply le_n_S; exact IH].
Qed.

Lemma scan_index_monotone_witness :
  -1 <= 2
  /\ (scan_index Index1.SENTIMENT_CATEGORIES (-1)
      <= scan_index Index1.SENTIMENT_CATEGORIES 2)%nat.
Proof.
  assert (H : -1 <= 2) by discriminate.
  split; [exact H|].
  exact (proj2 (scan_index_monotone Index1.SENTIMENT_CATEGORIES (-1) 2) H).
Defined.

(** Tries the scores of a short list until one is classified as wanted. *)
Ltac reach :=
  first [ exists (-4); reflexivity | exists (-2); reflexivity | exists (-1); reflexivity
        | exists (-0.3); reflexivity | exists (-0.2); reflexivity
        | exists (-0.05); reflexivity | exists 0; reflexivity
        | exists 0.05; reflexivity | exists 0.2; reflexivity | exists 0.3; reflexivity
        | exists 1; reflexivity | exists 2; reflexivity | exists 4; reflexivity ].

(** X3: every label of the first table of src/index.ts, of the earliest
    table and of the nine-row table is the category of some score, and so
    is each of the nine categories of the latest classifier. *)
Theorem every_label_reached :
  (forall table : CategoryTable,
      In table [ Index1.SENTIMENT_CATEGORIES; Earliest.SENTIMENT_CATEGORIES;
                 Nine.SENTIMENT_CATEGORIES ] ->
      forall label : string,
        In label (map snd table) -> exists score : Q, classify table score = label)
  /\ (forall label : string,
         In label SentimentCategory ->
         exists score : Q, Latest.analyzeSentiment score = label).
Proof.
  split.
  - intros table Htable label Hlabel. cbn [In] in Htable.
    destruct Htable as [<-|[<-|[<-|[]]]]; cbn [map snd In
      Index1.SENTIMENT_CATEGORIES Earliest.SENTIMENT_CATEGORIES Nine.SENTIMENT_CATEGORIES]
      in Hlabel;
      repeat (destruct Hlabel as [<-|Hlabel]; [reach|]); destruct Hlabel.
  - intros label Hlabel. unfold SentimentCategory in Hlabel. cbn [In] in Hlabel.
    repeat (destruct Hlabel as [<-|Hlabel]; [reach|]). destruct Hlabel.
Qed.

Lemma every_label_reached_witness :
  exists score : Q, classify Nine.SENTIMENT_CATEGORIES score = "very positive".
Proof.
  apply (proj1 every_label_reached Nine.SENTIMENT_CATEGORIES).
  - cbn [In]. tauto.
  - cbn [map snd In Nine.SENTIMENT_CATEGORIES]. tauto.
Defined.

(** ** How the classifiers relate *)

Ltac some_side :=
  first [ left; lra | right; left; lra | right; right; lra ].

(** X4: the latest classifier and the nine-row table give the same
    category except on the scores between -0.1 and 0.1 other than 0, where
    the table says "neutral" and the latest classifier takes a side:
    "slightly negative" below 0, "slightly positive" above. *)
Theorem latest_agrees_with_table (score : Q) :
  (Latest.analyzeSentiment score = Nine.analyzeSentiment score
   <-> (score <= -0.1 \/ score == 0 \/ 0.1 < score))
  /\ (-0.1 < score /\ score < 0 ->
      Nine.analyzeSentiment score = "neutral"
      /\ Latest.analyzeSentiment score = "slightly negative")
  /\ (0 < score /\ score <= 0.1 ->
      Nine.analyzeSentiment score = "neutral"
      /\ Latest.analyzeSentiment score = "slightly positive").
Proof.
  unfold Latest.analyzeSentiment, Nine.analyzeSentiment, Nine.SENTIMENT_CATEGORIES.
  run_branches. run_table.
  split; [|split].
  - repeat split_test; tests_to_orders;
      (split; [intros H; first [discriminate H | some_side | exfalso; lra]
              |intros [H|[H|H]]; first [reflexivity | exfalso; lra]]).
  - intros [Hlo Hhi]. split; repeat split_test; by_order.
  - intros [Hlo Hhi]. split; repeat split_test; by_order.
Qed.

(** X5: the latest classifier is monotone: of two scores the larger never
    gets the earlier of the nine categories. *)
Theorem latest_category_monotone (s1 s2 : Q) :
  s1 <= s2 ->
  (rank SentimentCategory (Latest.analyzeSentiment s1)
   <= rank SentimentCategory (Latest.analyzeSentiment s2))%nat.
Proof.
  intros H12. unfold Latest.analyzeSentiment. run_branches.
  repeat split_test;
    first [ apply Nat.leb_le; reflexivity | exfalso; tests_to_orders; lra ].
Qed.

Lemma latest_category_monotone_witness :
  -2 <= 0.3
  /\ (rank SentimentCategory (Latest.analyzeSentiment (-2))
      <= rank SentimentCategory (Latest.analyzeSentiment 0.3))%nat.
Proof.
  assert (H : -2 <= 0.3) by discriminate.
  split; [exact H|]. exact (latest_category_monotone (-2) 0.3 H).
Defined.

(** X6: the second revision of src/index.ts changed the first bound from
    -3 to -Infinity and nothing else: the two revisions classify alike
    exactly above -3, and at -3 and below the first says "very mean" where
    the second says "mean". *)
Theorem index_revisions_differ_at_the_bottom (score : Q) :
  (Index1.analyzeSentiment score = Index2.analyzeSentiment score <-> -3 < score)
  /\ (score <= -3 ->
      Index1.analyzeSentiment score = "very mean"
      /\ Index2.analyzeSentiment score = "mean").
Proof.
  unfold Index1.analyzeSentiment, Index1.SENTIMENT_CATEGORIES,
    Index2.analyzeSentiment, Index2.SENTIMENT_CATEGORIES.
  run_table. split.
  - repeat split_test; tests_to_orders;
      (split; [intros H; first [discriminate H | lra] | intros H; first [reflexivity | exfalso; lra]]).
  - intros H. repeat split_test; tests_to_orders;
      first [ split; reflexivity | exfalso; lra ].
Qed.

Lemma index_revisions_differ_at_the_bottom_witness :
  -4 <= -3
  /\ Index1.analyzeSentiment (-4) = "very mean"
  /\ Index2.analyzeSentiment (-4) = "mean".
Proof.
  assert (H : -4 <= -3) by discriminate.
  split; [exact H|]. exact (proj2 (index_revisions_differ_at_the_bottom (-4)) H).
Defined.

Lemma follows_on_sound (samples : list Q) (f g : Q -> string) :
  follows_on samples f g = true ->
  forall r1 r2 : Q, In r1 samples -> In r2 samples -> f r1 = f r2 -> g r1 = g r2.
Proof.
  unfold follows_on. intros Hall r1 r2 H1 H2 Hf.
  rewrite forallb_forall in Hall. specialize (Hall r1 H1).
  rewrite forallb_forall in Hall. specialize (Hall r2 H2).
  rewrite Hf, String.eqb_refl in Hall. cbn [implb] in Hall.
  apply String.eqb_eq. exact Hall.
Qed.

(** Picks the sample that behaves like the score at hand. *)
Ltac sample_of samples :=
  first [ exists (-4); unfold samples; cbn [In]; split; [tauto | split; reflexivity]
        | exists (-2); unfold samples; cbn [In]; split; [tauto | split; reflexivity]
        | exists (-1); unfold samples; cbn [In]; split; [tauto | split; reflexivity]
        | exists (-0.3); unfold samples; cbn [In]; split; [tauto | split; reflexivity]
        | exists 0; unfold samples; cbn [In]; split; [tauto | split; reflexivity]
        | exists 0.05; unfold samples; cbn [In]; split; [tauto | split; reflexivity]
        | exists 0.3; unfold samples; cbn [In]; split; [tauto | split; reflexivity]
        | exists 1; unfold samples; cbn [In]; split; [tauto | split; reflexivity]
        | exists 2; unfold samples; cbn [In]; split; [tauto | split; reflexivity]
        | exists 4; unfold samples; cbn [In]; split; [tauto | split; reflexivity] ].

(** Every score has the emoji and the category of one of the samples. *)
Lemma nine_sample (score : Q) :
  exists r : Q,
    In r nine_samples
    /\ Nine.getSentimentEmoji score = Nine.getSentimentEmoji r
    /\ Nine.analyzeSentiment score = Nine.analyzeSentiment r.
Proof.
  unfold Nine.getSentimentEmoji at 1. unfold Nine.analyzeSentiment at 1.
  unfold Nine.SENTIMENT_CATEGORIES. run_table.
  repeat split_test; sample_of nine_samples.
Qed.

Lemma latest_sample (score : Q) :
  exists r : Q,
    In r latest_samples
    /\ Latest.getSentimentEmoji score = Latest.getSentimentEmoji r
    /\ Latest.analyzeSentiment score = Latest.analyzeSentiment r.
Proof.
  unfold Latest.getSentimentEmoji at 1. unfold Latest.analyzeSentiment at 1.
  run_branches.
  repeat split_test;
    first [ sample_of latest_samples | exfalso; tests_to_orders; lra ].
Qed.

(** X7: in the nine-row module the emoji and the category are cut at the
    same bounds: two scores have the same emoji exactly when they have the
    same category. *)
Theorem nine_emoji_follows_category (s1 s2 : Q) :
  Nine.getSentimentEmoji s1 = Nine.getSentimentEmoji s2
  <-> Nine.analyzeSentiment s1 = Nine.analyzeSentiment s2.
Proof.
  destruct (nine_sample s1) as [r1 [H1 [He1 Hc1]]].
  destruct (nine_sample s2) as [r2 [H2 [He2 Hc2]]].
  rewrite He1, He2, Hc1, Hc2. split.
  - apply (follows_on_sound nine_samples Nine.getSentimentEmoji Nine.analyzeSentiment);
      [vm_compute; reflexivity | exact H1 | exact H2].
  - apply (follows_on_sound nine_samples Nine.analyzeSentiment Nine.getSentimentEmoji);
      [vm_compute; reflexivity | exact H1 | exact H2].
Qed.

(** X8: in the latest module the emoji is cut finer than the category:
    two scores with the same emoji have the same category, but "slightly
    positive" has one emoji up to 0.1 and another above it. *)
Theorem latest_emoji_refines_category (s1 s2 : Q) :
  (Latest.getSentimentEmoji s1 = Latest.getSentimentEmoji s2 ->
   Latest.analyzeSentiment s1 = Latest.analyzeSentiment s2)
  /\ (0 < s1 /\ s1 <= 0.1 -> 0.1 < s2 /\ s2 <= 0.5 ->
      Latest.analyzeSentiment s1 = "slightly positive"
      /\ Latest.analyzeSentiment s2 = "slightly positive"
      /\ Latest.getSentimentEmoji s1 <> Latest.getSentimentEmoji s2).
Proof.
  split.
  - destruct (latest_sample s1) as [r1 [H1 [He1 Hc1]]].
    destruct (latest_sample s2) as [r2 [H2 [He2 Hc2]]].
    rewrite He1, He2, Hc1, Hc2.
    apply (follows_on_sound latest_samples Latest.getSentimentEmoji Latest.analyzeSentiment);
      [vm_compute; reflexivity | exact H1 | exact H2].
  - intros [H1 H1'] [H2 H2'].
    assert (E1 : Latest.getSentimentEmoji s1 = Latest.getSentimentEmoji 0.05
                 /\ Latest.analyzeSentiment s1 = "slightly positive").
    { unfold Latest.getSentimentEmoji at 1. unfold Latest.analyzeSentiment. run_branches.
      repeat split_test; first [ split; reflexivity | exfalso; tests_to_orders; lra ]. }
    assert (E2 : Latest.getSentimentEmoji s2 = Latest.getSentimentEmoji 0.3
                 /\ Latest.analyzeSentiment s2 = "slightly positive").
    { unfold Latest.getSentimentEmoji at 1. unfold Latest.analyzeSentiment. run_branches.
      repeat split_test; first [ split; reflexivity | exfalso; tests_to_orders; lra ]. }
    destruct E1 as [E1 C1], E2 as [E2 C2].
    split; [exact C1|]. split; [exact C2|].
    rewrite E1, E2. vm_compute. discriminate.
Qed.

Lemma latest_emoji_refines_category_witness :
  (0 < 0.05 /\ 0.05 <= 0.1) /\ (0.1 < 0.3 /\ 0.3 <= 0.5)
  /\ Latest.analyzeSentiment 0.05 = "slightly positive"
  /\ Latest.analyzeSentiment 0.3 = "slightly positive"
  /\ Latest.getSentimentEmoji 0.05 <> Latest.getSentimentEmoji 0.3.
Proof.
  assert (H1 : 0 < 0.05 /\ 0.05 <= 0.1) by (split; [reflexivity | discriminate]).
  assert (H2 : 0.1 < 0.3 /\ 0.3 <= 0.5) by (split; [reflexivity | discriminate]).
  split; [exact H1|]. split; [exact H2|].
  exact (proj2 (latest_emoji_refines_category 0.05 0.3) H1 H2).
Defined.

(** ** Phrase pools *)

(** The message, band by band. *)
Lemma message_from_band_pool_parts (score : Q) (src : Random.source) :
  Random.in_unit_interval src ->
  exists phrase : string,
    fst (Latest.getSentimentMessage score src) = JS.Str phrase
    /\ (score <= -3 -> In phrase Latest.extremelyNegative)
    /\ (-3 < score /\ score <= -1.5 -> In phrase Latest.veryNegative)
    /\ (-1.5 < score /\ score <= -0.5 -> In phrase Latest.moderatelyNegative)
    /\ (-0.5 < score /\ score < 0 -> In phrase Latest.slightlyNegative)
    /\ (score == 0 -> In phrase Latest.neutral)
    /\ (0 < score /\ score < 0.5 -> In phrase Latest.slightlyPositive)
    /\ (0.5 <= score /\ score < 1.5 -> In phrase Latest.moderatelyPositive)
    /\ (1.5 <= score /\ score < 3 -> In phrase Latest.veryPositive)
    /\ (3 <= score -> In phrase Latest.extremelyPositive).
Proof.
  intros Hunit. destruct (Hunit O) as [H0 H1].
  unfold Latest.getSentimentMessage. run_branches.
  repeat split_test; rewrite item_run; cbn [fst]; tests_to_orders;
    draw_from src H0 H1 phrase Hphrase Hin;
    exists phrase; (split; [exact Hphrase|]); in_band.
Qed.

(** X9: with a draw in [0, 1) the message of the latest composer is one
    phrase of the pool of the band the score lies in; on the positive side
    a band takes in its lower bound, on the negative side its upper one,
    and only the score 0 draws from the neutral pool. *)
Theorem message_from_band_pool (score : Q) (src : Random.source) :
  Random.in_unit_interval src ->
  exists phrase : string,
    fst (Latest.getSentimentMessage score src) = JS.Str phrase
    /\ (score <= -3 -> In phrase Latest.extremelyNegative)
    /\ (-3 < score /\ score <= -1.5 -> In phrase Latest.veryNegative)
    /\ (-1.5 < score /\ score <= -0.5 -> In phrase Latest.moderatelyNegative)
    /\ (-0.5 < score /\ score < 0 -> In phrase Latest.slightlyNegative)
    /\ (score == 0 -> In phrase Latest.neutral)
    /\ (0 < score /\ score < 0.5 -> In phrase Latest.slightlyPositive)
    /\ (0.5 <= score /\ score < 1.5 -> In phrase Latest.moderatelyPositive)
    /\ (1.5 <= score /\ score < 3 -> In phrase Latest.veryPositive)
    /\ (3 <= score -> In phrase Latest.extremelyPositive).
Proof. apply message_from_band_pool_parts. Qed.

Lemma message_from_band_pool_witness :
  Random.in_unit_interval half_source
  /\ exists phrase : string,
      fst (Latest.getSentimentMessage 3 half_source) = JS.Str phrase
      /\ In phrase Latest.extremelyPositive.
Proof.
  split; [exact half_source_in_unit_interval|].
  destruct (message_from_band_pool 3 half_source half_source_in_unit_interval)
    as [phrase [Hphrase [_ [_ [_ [_ [_ [_ [_ [_ Hband]]]]]]]]]].
  exists phrase. split; [exact Hphrase|]. apply Hband. discriminate.
Defined.

(** The suggestion for a score other than 0, band by band. *)
Lemma suggestion_from_band_pool (score : Q) (src : Random.source) :
  ~ score == 0 -> Random.in_unit_interval src ->
  exists phrase : string,
    fst (Latest.getSentimentSuggestion score src) = JS.Str phrase
    /\ (score <= -3 -> In phrase Latest.extremelyNegativeSuggestions)
    /\ (-3 < score /\ score <= -1.5 -> In phrase Latest.veryNegativeSuggestions)
    /\ (-1.5 < score /\ score <= -0.5 -> In phrase Latest.moderatelyNegativeSuggestions)
    /\ (-0.5 < score /\ score < 0 -> In phrase Latest.slightlyNegativeSuggestions)
    /\ (0 < score /\ score < 0.5 -> In phrase Latest.slightlyPositiveSuggestions)
    /\ (0.5 <= score /\ score < 1.5 -> In phrase Latest.moderatelyPositiveSuggestions)
    /\ (1.5 <= score /\ score < 3 -> In phrase Latest.veryPositiveSuggestions)
    /\ (3 <= score -> In phrase Latest.extremelyPositiveSuggestions).
Proof.
  intros Hne Hunit. destruct (Hunit O) as [H0 H1].
  assert (Hzero : JS.seq score 0 = false).
  { unfold JS.seq. destruct (Qeq_bool score 0) eqn:E; [|reflexivity].
    apply Qeq_bool_iff in E. contradiction. }
  unfold Latest.getSentimentSuggestion. rewrite Hzero. unfold JS.ge.
  repeat split_test; rewrite item_run; cbn [fst]; tests_to_orders;
    draw_from src H0 H1 phrase Hphrase Hin;
    exists phrase; (split; [exact Hphrase|]); in_band.
Qed.

(** Equal scores, however written, get the same category and emoji. *)
Lemma latest_respects_Qeq (s1 s2 : Q) :
  s1 == s2 ->
  Latest.analyzeSentiment s1 = Latest.analyzeSentiment s2
  /\ Latest.getSentimentEmoji s1 = Latest.getSentimentEmoji s2.
Proof.
  intros H.
  assert (Hle : forall c, Qle_bool s1 c = Qle_bool s2 c) by (intros c; rewrite H; reflexivity).
  assert (Hge : forall c, Qle_bool c s1 = Qle_bool c s2) by (intros c; rewrite H; reflexivity).
  assert (Heq : forall c, Qeq_bool s1 c = Qeq_bool s2 c) by (intros c; rewrite H; reflexivity).
  unfold Latest.analyzeSentiment, Latest.getSentimentEmoji, JS.seq, JS.lt.
  rewrite !Hle, !Hge, !Heq. split; reflexivity.
Qed.

(** X10: at the scores 0.5, 1.5 and 3 the latest module disagrees with
    itself.  The category and the emoji are those of the band below the
    bound, the message and the suggestion are drawn from the pools of the
    band above it. *)
Theorem boundary_score_mixes_bands (score : Q) (src : Random.source) :
  Random.in_unit_interval src ->
  score == 0.5 \/ score == 1.5 \/ score == 3 ->
  exists message suggestion : string,
    fst (Latest.getSentimentMessage score src) = JS.Str message
    /\ fst (Latest.getSentimentSuggestion score src) = JS.Str suggestion
    /\ (score == 0.5 ->
        Latest.analyzeSentiment score = "slightly positive"
        /\ Latest.getSentimentEmoji score = Latest.getSentimentEmoji 0.3
        /\ In message Latest.moderatelyPositive
        /\ In suggestion Latest.moderatelyPositiveSuggestions)
    /\ (score == 1.5 ->
        Latest.analyzeSentiment score = "positive"
        /\ Latest.getSentimentEmoji score = Latest.getSentimentEmoji 1
        /\ In message Latest.veryPositive
        /\ In suggestion Latest.veryPositiveSuggestions)
    /\ (score == 3 ->
        Latest.analyzeSentiment score = "very positive"
        /\ Latest.getSentimentEmoji score = Latest.getSentimentEmoji 2
        /\ In message Latest.extremelyPositive
        /\ In suggestion Latest.extremelyPositiveSuggestions).
Proof.
  intros Hunit Hat.
  assert (Hzero : ~ score == 0) by (intros Hz; destruct Hat as [H|[H|H]]; lra).
  destruct (message_from_band_pool_parts score src Hunit)
    as [m [Hm [_ [_ [_ [_ [_ [_ [Hm1 [Hm2 Hm3]]]]]]]]]].
  destruct (suggestion_from_band_pool score src Hzero Hunit)
    as [s [Hs [_ [_ [_ [_ [_ [Hs1 [Hs2 Hs3]]]]]]]]].
  exists m, s. split; [exact Hm|]. split; [exact Hs|].
  split; [|split]; intros Heq;
    destruct (latest_respects_Qeq _ _ Heq) as [Hc He]; rewrite Hc, He;
    (split; [reflexivity|]); (split; [reflexivity|]); split;
    first [ apply Hm1; lra | apply Hm2; lra | apply Hm3; lra
          | apply Hs1; lra | apply Hs2; lra | apply Hs3; lra ].
Qed.

Lemma boundary_score_mixes_bands_witness :
  Random.in_unit_interval half_source
  /\ (3 == 0.5 \/ 3 == 1.5 \/ 3 == 3)
  /\ exists message suggestion : string,
      fst (Latest.getSentimentMessage 3 half_source) = JS.Str message
      /\ fst (Latest.getSentimentSuggestion 3 half_source) = JS.Str suggestion
      /\ Latest.analyzeSentiment 3 = "very positive"
      /\ In message Latest.extremelyPositive
      /\ In suggestion Latest.extremelyPositiveSuggestions.
Proof.
  assert (Hat : 3 == 0.5 \/ 3 == 1.5 \/ 3 == 3) by (right; right; reflexivity).
  split; [exact half_source_in_unit_interval|]. split; [exact Hat|].
  destruct (boundary_score_mixes_bands 3 half_source half_source_in_unit_interval Hat)
    as [m [s [Hm [Hs [_ [_ H3]]]]]].
  destruct (H3 ltac:(reflexivity)) as [Hc [_ [Hmp Hsp]]].
  exists m, s. repeat (split; [assumption|]). assumption.
Defined.

(** The message pool and the suggestion pool a score other than 0
    selects belong to one band. *)
Lemma pools_of_one_band (score : Q) :
  ~ score == 0 ->
  exists pools : list string * list string,
    In pools band_pools
    /\ Latest.getSentimentMessage score = Latest.getRandomArrayItem (fst pools)
    /\ Latest.getSentimentSuggestion score = Latest.getRandomArrayItem (snd pools).
Proof.
  intros Hne.
  assert (Hzero : JS.seq score 0 = false).
  { unfold JS.seq. destruct (Qeq_bool score 0) eqn:E; [|reflexivity].
    apply Qeq_bool_iff in E. contradiction. }
  unfold Latest.getSentimentMessage, Latest.getSentimentSuggestion.
  rewrite Hzero. unfold JS.ge.
  repeat split_test;
    match goal with
    | |- exists _, _ /\ Latest.getRandomArrayItem ?m = _ /\ Latest.getRandomArrayItem ?s = _  =>
        exists (m, s); split; [|split; reflexivity]
    end;
    unfold band_pools; cbn [In]; tauto.
Qed.

(** X11: for a score other than 0 and the draws of [Math.random] the
    reply of the latest composer carries one phrase of a message pool and
    one phrase of the suggestion pool of the same band, the message chosen
    by the first draw and the suggestion by the second; around them the
    text is fixed, and it never reads "undefined". *)
Theorem reply_phrases_share_a_band
  (NumberToString : Q -> string) (username : string) (score : Q) (src : Random.source) :
  ~ score == 0 -> Random.in_unit_interval src ->
  exists (pools : list string * list string) (message suggestion : string),
    In pools band_pools
    /\ In message (fst pools) /\ In suggestion (snd pools)
    /\ fst (Latest.getSentimentMessage score src) = JS.Str message
    /\ fst (Latest.getSentimentSuggestion score (fun i => src (S i))) = JS.Str suggestion
    /\ fst (Latest.generateSentimentResponse NumberToString username score src)
       = Latest.getSentimentEmoji score ++ " Hey @" ++ username ++ "! " ++ message
         ++ " Your sentiment score is " ++ JS.toFixed NumberToString score 2
         ++ " (" ++ Latest.analyzeSentiment score ++ "). " ++ suggestion.
Proof.
  intros Hne Hunit.
  destruct (pools_of_one_band score Hne) as [[mpool spool] [Hin [Hm Hs]]].
  cbn [fst snd] in Hm, Hs.
  assert (Hpools : (mpool <> [] /\ (Z.of_nat (List.length mpool) < 2 ^ 53)%Z)
                   /\ (spool <> [] /\ (Z.of_nat (List.length spool) < 2 ^ 53)%Z)).
  { unfold band_pools in Hin. cbn [In] in Hin.
    repeat (destruct Hin as [Hin|Hin];
            [inversion Hin; split; split; [discriminate|reflexivity|discriminate|reflexivity]|]).
    destruct Hin. }
  destruct Hpools as [[Hmne Hmshort] [Hsne Hsshort]].
  destruct (Hunit 0%nat) as [H00 H01]. destruct (Hunit 1%nat) as [H10 H11].
  destruct (item_in_pool mpool (src 0%nat) Hmne Hmshort H00 H01) as [m [Hmi Hmin]].
  destruct (item_in_pool spool (src 1%nat) Hsne Hsshort H10 H11) as [s [Hsi Hsin]].
  exists (mpool, spool), m, s. cbn [fst snd].
  split; [exact Hin|]. split; [exact Hmin|]. split; [exact Hsin|].
  split; [rewrite Hm, item_run; exact Hmi|].
  split; [rewrite Hs, item_run; exact Hsi|].
  unfold Latest.generateSentimentResponse. cbv zeta.
  rewrite Hm, Hs, !bind_run, !item_run. unfold Random.ret. cbn [fst snd].
  rewrite Hmi, Hsi. reflexivity.
Qed.

Lemma reply_phrases_share_a_band_witness :
  ~ 1 == 0 /\ Random.in_unit_interval half_source
  /\ exists (pools : list string * list string) (message suggestion : string),
      In pools band_pools
      /\ In message (fst pools) /\ In suggestion (snd pools)
      /\ fst (Latest.generateSentimentResponse unreached "bob" 1 half_source)
         = Latest.getSentimentEmoji 1 ++ " Hey @" ++ "bob" ++ "! " ++ message
           ++ " Your sentiment score is " ++ JS.toFixed unreached 1 2
           ++ " (" ++ Latest.analyzeSentiment 1 ++ "). " ++ suggestion.
Proof.
  assert (Hone : ~ 1 == 0) by discriminate.
  split; [exact Hone|]. split; [exact half_source_in_unit_interval|].
  destruct (reply_phrases_share_a_band unreached "bob" 1 half_source
              Hone half_source_in_unit_interval)
    as [pools [m [s [Hin [Hm [Hs [_ [_ Hreply]]]]]]]].
  exists pools, m, s. repeat (split; [assumption|]). exact Hreply.
Defined.

(** X12: composing one reply uses up two draws, one for the message and
    then one for the suggestion; at the score 0 it uses up one, the
    suggestion being taken without a draw. *)
Theorem reply_consumes_draws
  (NumberToString : Q -> string) (username : string) (score : Q) (src : Random.source) :
  (~ score == 0 ->
   forall i : nat,
     snd (Latest.generateSentimentResponse NumberToString username score src) i
     = src (S (S i)))
  /\ (score == 0 ->
      forall i : nat,
        snd (Latest.generateSentimentResponse NumberToString username score src) i
        = src (S i)).
Proof.
  unfold Latest.generateSentimentResponse. cbv zeta.
  destruct (message_from_pool score) as [mpool Hm]. rewrite Hm. split.
  - intros Hne i.
    destruct (pools_of_one_band score Hne) as [[mp sp] [_ [_ Hs]]]. rewrite Hs.
    rewrite !bind_run, !item_run. reflexivity.
  - intros Heq i.
    assert (Hs : Latest.getSentimentSuggestion score
                 = Random.ret (JS.Arr Latest.neutralSuggestions)).
    { unfold Latest.getSentimentSuggestion, JS.seq.
      rewrite (Qeq_eq_bool _ _ Heq). reflexivity. }
    rewrite Hs, !bind_run, !item_run. reflexivity.
Qed.

Lemma reply_consumes_draws_witness :
  (~ 1 == 0
   /\ snd (Latest.generateSentimentResponse unreached "bob" 1 half_source) 0%nat
      = half_source 2%nat)
  /\ (0 == 0
      /\ snd (Latest.generateSentimentResponse unreached "bob" 0 half_source) 0%nat
         = half_source 1%nat).
Proof.
  assert (Hone : ~ 1 == 0) by discriminate.
  assert (Hzero : 0 == 0) by reflexivity.
  split; (split; [assumption|]).
  - exact (proj1 (reply_consumes_draws unreached "bob" 1 half_source) Hone 0%nat).
  - exact (proj2 (reply_consumes_draws unreached "bob" 0 half_source) Hzero 0%nat).
Defined.

(** ** More on the score format *)

Lemma floor_of_unit (y : Q) : 0 <= y -> y < 1 -> Qfloor y = 0%Z.
Proof.
  intros H0 H1.
  assert (Hlo : (0 <= Qfloor y)%Z).
  { change 0%Z with (Qfloor 0). apply Qfloor_resp_le. exact H0. }
  assert (Hhi : (Qfloor y < 1)%Z).
  { rewrite Zlt_Qlt. apply Qle_lt_trans with y; [apply Qfloor_le | exact H1]. }
  lia.
Qed.

Lemma floor_of_half_more (n : Z) : Qfloor (inject_Z n + (1 # 2)) = n.
Proof.
  assert (Hlo : (n <= Qfloor (inject_Z n + (1 # 2)))%Z).
  { rewrite <- (Qfloor_Z n) at 1. apply Qfloor_resp_le. lra. }
  assert (Hhi : (Qfloor (inject_Z n + (1 # 2)) < n + 1)%Z).
  { rewrite Zlt_Qlt, inject_Z_plus. change (inject_Z 1) with 1.
    apply Qle_lt_trans with (inject_Z n + (1 # 2)); [apply Qfloor_le | lra]. }
  lia.
Qed.

Lemma hundredths_of_integer (a : Z) : hundredths (inject_Z a) = (a * 100)%Z.
Proof.
  unfold hundredths.
  assert (H : inject_Z a * 100 + (1 # 2) == inject_Z (a * 100) + (1 # 2)).
  { rewrite inject_Z_mult. reflexivity. }
  rewrite H. apply floor_of_half_more.
Qed.

(** X14: a whole score keeps every digit: the pattern that strips the
    decimals never reaches into the integer part, so 10 reads "+10" and
    -200 reads "-200". *)
Theorem formatScore_whole (NumberToString : Q -> string) (z : Z) :
  (Z.abs z < 10 ^ 21)%Z ->
  Nine.formatScore NumberToString (inject_Z z)
  = (if (0 <=? z)%Z then "+" else "-") ++ JS.decimal (Z.abs z).
Proof.
  intros Hbig.
  assert (Habs : Qabs (inject_Z z) = inject_Z (Z.abs z)) by reflexivity.
  rewrite formatScore_stripped by (rewrite Habs, <- Zlt_Qlt; exact Hbig).
  unfold signed_two_decimals_stripped. rewrite Habs, hundredths_of_integer.
  assert (Hsign : Qle_bool 0 (inject_Z z) = (0 <=? z)%Z).
  { unfold Qle_bool, inject_Z. cbn [Qnum Qden]. rewrite !Z.mul_1_r. reflexivity. }
  rewrite Hsign. f_equal.
  unfold two_decimals_stripped.
  rewrite Z.div_mul, Z.mod_mul by lia. cbn [Z.eqb]. apply append_empty.
Qed.

Lemma formatScore_whole_witness :
  (Z.abs (-200) < 10 ^ 21)%Z /\ Nine.formatScore unreached (inject_Z (-200)) = "-200".
Proof.
  assert (H : (Z.abs (-200) < 10 ^ 21)%Z) by reflexivity.
  split; [exact H|]. exact (formatScore_whole unreached (-200) H).
Defined.

(** X15: a score that rounds to no hundredths reads as a signed zero:
    "+0" from 0 up to 0.005, and "-0" between -0.005 and 0. *)
Theorem formatScore_rounds_to_signed_zero (NumberToString : Q -> string) (score : Q) :
  (0 <= score /\ score < 0.005 -> Nine.formatScore NumberToString score = "+0")
  /\ (-0.005 < score /\ score < 0 -> Nine.formatScore NumberToString score = "-0").
Proof.
  split; intros [Hlo Hhi].
  - assert (Habs : Qabs score == score) by (apply Qabs_pos; exact Hlo).
    rewrite formatScore_stripped
      by (rewrite Habs; apply Qlt_trans with 1; [lra | reflexivity]).
    unfold signed_two_decimals_stripped.
    rewrite (hundredths_comp _ _ Habs).
    assert (Hsign : Qle_bool 0 score = true) by (apply Qle_bool_iff; exact Hlo).
    rewrite Hsign. unfold hundredths. rewrite floor_of_unit by lra. reflexivity.
  - assert (Habs : Qabs score == - score) by (apply Qabs_neg; lra).
    rewrite formatScore_stripped
      by (rewrite Habs; apply Qlt_trans with 1; [lra | reflexivity]).
    unfold signed_two_decimals_stripped.
    rewrite (hundredths_comp _ _ Habs).
    assert (Hsign : Qle_bool 0 score = false) by (apply Qle_bool_false; exact Hhi).
    rewrite Hsign. unfold hundredths. rewrite floor_of_unit by lra. reflexivity.
Qed.

Lemma formatScore_rounds_to_signed_zero_witness :
  (-0.005 < -0.001 /\ -0.001 < 0) /\ Nine.formatScore unreached (-0.001) = "-0".
Proof.
  assert (H : -0.005 < -0.001 /\ -0.001 < 0) by (split; reflexivity).
  split; [exact H|]. exact (proj2 (formatScore_rounds_to_signed_zero unreached (-0.001)) H).
Defined.

(** X16: the reply of the nine-row composer always exists and names the
    category of the score in brackets after the score, except that
    "neutral" is shown as "perfectly balanced". *)
Theorem nine_reply_names_category (NumberToString : Q -> string)
  (username : string) (score : Q) (postCount : Z) :
  exists message suggestion : string,
    Nine.generateSentimentResponse NumberToString username score postCount
    = Some (Nine.getSentimentEmoji score ++ " Hey @" ++ username ++ "! " ++ message ++ " "
            ++ ("Your sentiment score is " ++ Nine.formatScore NumberToString score
                ++ " ("
                ++ (if String.eqb (Nine.analyzeSentiment score) "neutral"
                    then "perfectly balanced" else Nine.analyzeSentiment score)
                ++ ").")
            ++ " " ++ suggestion).
Proof.
  unfold Nine.generateSentimentResponse.
  generalize (Nine.formatScore NumberToString score) as shown.
  generalize (Nine.getSentimentEmoji score) as emoji.
  intros emoji shown.
  unfold Nine.analyzeSentiment, Nine.SENTIMENT_CATEGORIES. run_table.
  repeat split_test;
    cbn [Nine.property Nine.responses String.eqb Ascii.eqb Bool.eqb
         Nine.message Nine.detail Nine.suggestion];
    eexists _, _; reflexivity.
Qed.

(** ** Inputs without weight *)

(** Adding nothing to nothing. *)
Lemma reduce_weightless (values : list Q) :
  (forall v : Q, In v values -> v == 0) ->
  fold_left (fun sum score => JS.plus sum score) values (JS.Num 0) = JS.Num 0.
Proof.
  induction values as [|v rest IH]; intros Hall; [reflexivity|].
  cbn [fold_left]. rewrite (plus_comp _ v 0) by (apply Hall; left; reflexivity).
  assert (Hstep : JS.plus (JS.Num 0) 0 = JS.Num 0) by (vm_compute; reflexivity).
  rewrite Hstep. apply IH. intros w Hw. apply Hall. right. exact Hw.
Qed.

Lemma zero_over (count : nat) : JS.over (JS.Num 0) count = JS.Num 0.
Proof.
  cbn [JS.over].
  rewrite (round53_comp (0 / inject_Z (Z.of_nat count)) 0) by (unfold Qdiv; ring).
  vm_compute. reflexivity.
Qed.

Lemma weightless_values (Options : Type)
  (comparative : string -> option Options -> Q) (options : option Options)
  (texts : list string) :
  (forall text, In text texts -> comparative text options == 0) ->
  forall v : Q, In v (map (fun text => comparative text options) texts) -> v == 0.
Proof.
  intros Hall v Hv. apply in_map_iff in Hv. destruct Hv as [text [<- Hin]].
  apply Hall. exact Hin.
Qed.

(** Texts without weight score 0. *)
Lemma weightless_texts_score_zero (Options : Type)
  (comparative : string -> option Options -> Q) (options : option Options)
  (texts : list string) :
  (forall text, In text texts -> comparative text options == 0) ->
  Score.analyzeSentimentScore Options comparative texts options = JS.Num 0.
Proof.
  intros Hall. unfold Score.analyzeSentimentScore.
  destruct (0 <? List.length texts)%nat; [|reflexivity].
  rewrite (reduce_weightless _ (weightless_values Options comparative options texts Hall)).
  apply zero_over.
Qed.

Lemma weightless_texts_average_zero (Options : Type)
  (comparative : string -> option Options -> Q) (options : option Options)
  (texts : list string) :
  (forall text, In text texts -> comparative text options == 0) ->
  Earliest.averageComparative Options comparative texts options = JS.Num 0.
Proof.
  intros Hall. unfold Earliest.averageComparative.
  destruct (0 <? List.length texts)%nat; [|reflexivity].
  rewrite (reduce_weightless _ (weightless_values Options comparative options texts Hall)).
  apply zero_over.
Qed.

Lemma earliest_weightless_mean (Options : Type)
  (comparative : string -> option Options -> Q) (texts : list string) :
  (forall text, In text texts -> comparative text None == 0) ->
  Earliest.analyzeSentiment Options comparative texts None = "mean".
Proof.
  intros Hall. unfold Earliest.analyzeSentiment.
  rewrite (weightless_texts_average_zero Options comparative None texts Hall).
  vm_compute. reflexivity.
Qed.

(** X18: in the earliest revision an input whose texts all have the
    comparative value 0, and the empty input with them, is classified
    "mean": the average is 0 and 0 is the bound of the "mean" row. *)
Theorem earliest_weightless_input_is_mean (Options : Type)
  (comparative : string -> option Options -> Q) (options : option Options)
  (texts : list string) :
  (forall text, In text texts -> comparative text options == 0) ->
  Earliest.analyzeSentiment Options comparative texts options = "mean".
Proof.
  intros Hall. unfold Earliest.analyzeSentiment.
  rewrite (weightless_texts_average_zero Options comparative options texts Hall).
  vm_compute. reflexivity.
Qed.

Lemma earliest_weightless_input_is_mean_witness :
  Earliest.analyzeSentiment unit (fun _ _ => 0) ["hello"; "world"] None = "mean".
Proof.
  apply (earliest_weightless_input_is_mean unit (fun _ _ => 0) None ["hello"; "world"]).
  intros text Hin. reflexivity.
Defined.

(** ** The five-category composer and the handler *)

Section FiveWayFacts.

Variable NumberToString : Q -> string.
Variables e1 e2 e3 e4 e5 : string.

Lemma inherited_spec (key : string) :
  JS.inherited key = true <-> In key JS.Object_prototype.
Proof.
  unfold JS.inherited. rewrite existsb_exists. split.
  - intros [name [Hin Heq]]. apply String.eqb_eq in Heq. subst name. exact Hin.
  - intros Hin. exists key. split; [exact Hin | apply String.eqb_refl].
Qed.

(** Only a label that is neither one of the five nor a name every
    object inherits finds nothing. *)
Lemma five_way_defined (username sentiment : string) (postCount : Q) :
  FiveWay.generateSentimentResponse NumberToString e1 e2 e3 e4 e5
    username sentiment postCount = None
  <-> ~ In sentiment five_labels /\ ~ In sentiment JS.Object_prototype.
Proof.
  rewrite <- inherited_spec.
  unfold FiveWay.generateSentimentResponse, FiveWay.property, FiveWay.responses, five_labels.
  cbn [FiveWay.own_property In].
  repeat match goal with
         | |- context [String.eqb ?k sentiment] =>
             destruct (String.eqb_spec k sentiment) as [<-|?]
         end;
    try (split; [intros H; discriminate H | intros [H _]; exfalso; apply H; tauto]).
  destruct (JS.inherited sentiment).
  - split; [intros H; discriminate H | intros [_ H]; exfalso; apply H; reflexivity].
  - split; [intros _; split; [tauto | discriminate] | reflexivity].
Qed.

(** A name every object inherits is answered with three times
    "undefined". *)
Lemma five_way_inherited (username sentiment : string) (postCount : Q) :
  In sentiment JS.Object_prototype ->
  FiveWay.generateSentimentResponse NumberToString e1 e2 e3 e4 e5
    username sentiment postCount
  = Some ("undefined Hey @" ++ username ++ "! undefined undefined").
Proof.
  unfold JS.Object_prototype. cbn [In]. intros Hin.
  repeat (destruct Hin as [<-|Hin]; [reflexivity|]). destruct Hin.
Qed.

End FiveWayFacts.

(** X19: the five-category composer looks the label up in an object
    literal.  The labels "very mean", "mean", "neutral", "nice" and "very
    nice" find their entry; a name every object inherits, such as
    "toString" or "constructor", finds a property without [message],
    [suggestion] and [emoji], and the reply reads "undefined" three times;
    only any other label finds nothing.  Whatever the score, the label its
    classifier returns, the fallback included, is one of the five, in both
    revisions of src/index.ts and in the earliest revision. *)
Theorem five_way_reply_defined (NumberToString : Q -> string)
  (username : string) (postCount : Q) :
  (forall sentiment : string,
      Index1.generateSentimentResponse NumberToString username sentiment postCount = None
      <-> ~ In sentiment five_labels /\ ~ In sentiment JS.Object_prototype)
  /\ (forall sentiment : string,
         In sentiment JS.Object_prototype ->
         Index1.generateSentimentResponse NumberToString username sentiment postCount
         = Some ("undefined Hey @" ++ username ++ "! undefined undefined"))
  /\ Index1.generateSentimentResponse NumberToString username "toString" postCount
     = Some ("undefined Hey @" ++ username ++ "! undefined undefined")
  /\ Index1.generateSentimentResponse NumberToString username "constructor" postCount
     = Some ("undefined Hey @" ++ username ++ "! undefined undefined")
  /\ (forall score : Q,
         In (Index1.analyzeSentiment score) five_labels
         /\ In (Index2.analyzeSentiment score) five_labels
         /\ In (classify Earliest.SENTIMENT_CATEGORIES score) five_labels
         /\ Index1.generateSentimentResponse NumberToString username
              (Index1.analyzeSentiment score) postCount <> None
         /\ Index2.generateSentimentResponse NumberToString username
              (Index2.analyzeSentiment score) postCount <> None
         /\ Earliest.generateSentimentResponse NumberToString username
              (classify Earliest.SENTIMENT_CATEGORIES score) postCount <> None).
Proof.
  split; [intros sentiment; apply five_way_defined|].
  split; [intros sentiment; apply five_way_inherited|].
  split; [reflexivity|]. split; [reflexivity|].
  intros score.
  assert (H1 : In (Index1.analyzeSentiment score) five_labels).
  { unfold Index1.analyzeSentiment, Index1.SENTIMENT_CATEGORIES. run_table.
    unfold five_labels. repeat split_test; cbn [In]; tauto. }
  assert (H2 : In (Index2.analyzeSentiment score) five_labels).
  { unfold Index2.analyzeSentiment, Index2.SENTIMENT_CATEGORIES. run_table.
    unfold five_labels. repeat split_test; cbn [In]; tauto. }
  assert (H0 : In (classify Earliest.SENTIMENT_CATEGORIES score) five_labels).
  { unfold Earliest.SENTIMENT_CATEGORIES. run_table.
    unfold five_labels. repeat split_test; cbn [In]; tauto. }
  split; [exact H1|]. split; [exact H2|]. split; [exact H0|].
  unfold Index1.generateSentimentResponse, Index2.generateSentimentResponse,
    Earliest.generateSentimentResponse.
  rewrite !five_way_defined. tauto.
Qed.

(** The neutral reply of the first revision of src/index.ts. *)
Lemma index1_neutral_reply (NumberToString : Q -> string) (user : string) :
  Index1.generateSentimentResponse NumberToString user "neutral" 100
  = Some ("😐 Hey @" ++ user ++ "! Your recent 100 posts show a balanced communication style - neither overly positive nor negative. Your measured approach to discussions is appreciated in online communities.").
Proof. reflexivity. Qed.

(** The doubles the bounds of the tables of src/index.ts denote. *)
Lemma index_bounds_rounded :
  JS.round53 (-3) <= 0.25 /\ JS.round53 (-0.25) <= 0.25 /\ JS.round53 (-0.1) <= 0.25
  /\ JS.round53 0.1 <= 0.25 /\ JS.round53 0.25 <= 0.25.
Proof. repeat split; vm_compute; discriminate. Qed.

(** A score above 0.25 passes every row of either table. *)
Lemma above_quarter_falls_back (score : JS.number) :
  above 0.25 score ->
  Index1.analyzeSentiment_number score = "neutral"
  /\ Index2.analyzeSentiment_number score = "neutral".
Proof.
  destruct score as [|q|]; cbn [above]; intros Hhigh; [contradiction| |split; reflexivity].
  destruct index_bounds_rounded as [B1 [B2 [B3 [B4 B5]]]].
  unfold Index1.analyzeSentiment_number, Index2.analyzeSentiment_number, classify_number, scan_number, Index1.SENTIMENT_CATEGORIES, Index2.SENTIMENT_CATEGORIES.
  cbn [find fst JS.le_number].
  split; repeat split_test; first [ reflexivity | exfalso; tests_to_orders; lra ].
Qed.

(** X20: in both revisions of src/index.ts a user whose posts score above
    0.25, however high, is sent the reply for "neutral": the score falls
    off the table and the fallback names the template. *)
Theorem praise_is_answered_as_neutral (NumberToString : Q -> string) (Options : Type)
  (comparative : string -> option Options -> Q) (user : string) :
  (forall records : list Mention.json,
      above 0.25 (Score.analyzeSentimentScore Options comparative
                    (Mention.posts_of_records records) None) ->
      Mention.reply_text_1 NumberToString Options comparative user records
      = Some ("😐 Hey @" ++ user ++ "! Your recent 100 posts show a balanced communication style - neither overly positive nor negative. Your measured approach to discussions is appreciated in online communities."))
  /\ (forall posts : list string,
         above 0.25 (Score.analyzeSentimentScore Options comparative posts None) ->
         Mention.reply_text_2 NumberToString Options comparative user posts
         = Index2.generateSentimentResponse NumberToString user "neutral" 100).
Proof.
  split.
  - intros records Hhigh. unfold Mention.reply_text_1. cbv zeta.
    rewrite (proj1 (above_quarter_falls_back _ Hhigh)). apply index1_neutral_reply.
  - intros posts Hhigh. unfold Mention.reply_text_2. cbv zeta.
    rewrite (proj2 (above_quarter_falls_back _ Hhigh)). reflexivity.
Qed.

Lemma praise_is_answered_as_neutral_witness :
  above 0.25 (Score.analyzeSentimentScore unit (fun _ _ => 1) ["I love this!"] None)
  /\ Mention.reply_text_2 unreached unit (fun _ _ => 1) "bob" ["I love this!"]
     = Index2.generateSentimentResponse unreached "bob" "neutral" 100.
Proof.
  assert (H : above 0.25
                (Score.analyzeSentimentScore unit (fun _ _ => 1) ["I love this!"] None))
    by (vm_compute; reflexivity).
  split; [exact H|].
  exact (proj2 (praise_is_answered_as_neutral unreached unit (fun _ _ => 1) "bob")
           ["I love this!"] H).
Defined.

(** X21: what a user is told whose posts carry no weight at all, the
    user without posts among them.  The score is 0, and every revision
    that goes by a five-row table answers it with something other than
    the neutral reply: the earliest revision with the reply for "mean",
    both revisions of src/index.ts with the reply for "nice", each
    speaking of 100 posts. *)
Theorem weightless_posts_replies (NumberToString : Q -> string) (Options : Type)
  (comparative : string -> option Options -> Q) (user : string) :
  (forall posts : list string,
      (forall text, In text posts -> comparative text None == 0) ->
      Mention.reply_text_0 NumberToString Options comparative user posts
      = Some ("ðŸ™ Hey @" ++ user ++ "! After analyzing your last 100 posts, we've noticed a slightly negative tone in your communication. A few positive words can go a long way in how your messages are perceived.")
      /\ Mention.reply_text_2 NumberToString Options comparative user posts
         = Some ("ðŸ™‚ Hey @" ++ user ++ "! Analysis of your 100 recent posts shows you tend to be positive in your communications. Your constructive approach helps create a welcoming environment."))
  /\ (forall records : list Mention.json,
         (forall text, In text (Mention.posts_of_records records) ->
                       comparative text None == 0) ->
         Mention.reply_text_1 NumberToString Options comparative user records
         = Some ("🙂 Hey @" ++ user ++ "! Analysis of your 100 recent posts shows you tend to be positive in your communications. Your constructive approach helps create a welcoming environment.")).
Proof.
  split.
  - intros posts Hall. split.
    + unfold Mention.reply_text_0. cbv zeta.
      rewrite (earliest_weightless_mean Options comparative posts Hall). reflexivity.
    + unfold Mention.reply_text_2. cbv zeta.
      rewrite (weightless_texts_score_zero Options comparative None posts Hall).
      reflexivity.
  - intros records Hall. unfold Mention.reply_text_1. cbv zeta.
    rewrite (weightless_texts_score_zero Options comparative None _ Hall).
    reflexivity.
Qed.

Lemma weightless_posts_replies_witness :
  ((forall text, In text ["hello"; "world"] -> (fun _ _ => 0) text (@None unit) == 0)
   /\ Mention.reply_text_0 unreached unit (fun _ _ => 0) "bob" ["hello"; "world"]
      = Some "ðŸ™ Hey @bob! After analyzing your last 100 posts, we've noticed a slightly negative tone in your communication. A few positive words can go a long way in how your messages are perceived."
   /\ Mention.reply_text_2 unreached unit (fun _ _ => 0) "bob" ["hello"; "world"]
      = Some "ðŸ™‚ Hey @bob! Analysis of your 100 recent posts shows you tend to be positive in your communications. Your constructive approach helps create a welcoming environment.")
  /\ ((forall text,
         In text (Mention.posts_of_records
                    [ Mention.JObject [("text", Mention.JString "hello")]; Mention.JNull ]) ->
         (fun _ _ => 0) text (@None unit) == 0)
      /\ Mention.reply_text_1 unreached unit (fun _ _ => 0) "bob"
           [ Mention.JObject [("text", Mention.JString "hello")]; Mention.JNull ]
         = Some "🙂 Hey @bob! Analysis of your 100 recent posts shows you tend to be positive in your communications. Your constructive approach helps create a welcoming environment.").
Proof.
  assert (H : forall text, In text ["hello"; "world"] -> (fun _ _ => 0) text (@None unit) == 0)
    by (intros text _; reflexivity).
  assert (H' : forall text,
             In text (Mention.posts_of_records
                        [ Mention.JObject [("text", Mention.JString "hello")]; Mention.JNull ]) ->
             (fun _ _ => 0) text (@None unit) == 0)
    by (intros text _; reflexivity).
  split.
  - split; [exact H|].
    exact (proj1 (weightless_posts_replies unreached unit (fun _ _ => 0) "bob")
             ["hello"; "world"] H).
  - split; [exact H'|].
    exact (proj2 (weightless_posts_replies unreached unit (fun _ _ => 0) "bob")
             [ Mention.JObject [("text", Mention.JString "hello")]; Mention.JNull ] H').
Defined.

(** ** Records and posts *)

Lemma get_without_key (key : string) (fields : list (string * Mention.json)) :
  Mention.has_key key fields = false -> Mention.get key fields = None.
Proof.
  unfold Mention.has_key. induction fields as [|[k v] rest IH]; [reflexivity|].
  cbn [map fst existsb Mention.get]. intros H. apply orb_false_iff in H.
  destruct H as [Hk Hrest]. rewrite String.eqb_sym in Hk. rewrite Hk. apply IH. exact Hrest.
Qed.

(** What an operation returns is settled, and stays so. *)
Lemma overflow_settled (x : Q) : settled (JS.overflow (JS.round53 x)).
Proof.
  unfold JS.overflow.
  destruct (Qle_bool (inject_Z (2 ^ 1024)) (JS.round53 x)) eqn:E1; [exact I|].
  destruct (Qle_bool (JS.round53 x) (- inject_Z (2 ^ 1024))) eqn:E2; [exact I|].
  split; [apply round53_fixed|]. unfold JS.overflow. rewrite E1, E2. reflexivity.
Qed.

Lemma plus_settled (n : JS.number) (v : Q) : settled n -> settled (JS.plus n v).
Proof.
  destruct n as [|s|]; cbn [JS.plus]; intros H; try exact H. apply overflow_settled.
Qed.

Lemma zero_settled : settled (JS.Num 0).
Proof. split; vm_compute; reflexivity. Qed.

(** Adding 0 changes nothing: no rounding happens. *)
Lemma plus_nothing (n : JS.number) (v : Q) : settled n -> v == 0 -> JS.plus n v = n.
Proof.
  destruct n as [|s|]; try reflexivity. intros [Hr Ho] Hv. cbn [JS.plus].
  rewrite (round53_comp v 0 Hv), round53_zero.
  rewrite (round53_comp (s + 0) s) by ring.
  rewrite Hr. exact Ho.
Qed.

(** The posts of the records without a text leave the sum as it is. *)
Lemma reduce_skips_blank (weigh : string -> Q) (records : list Mention.json) (n : JS.number) :
  weigh "" == 0 -> settled n ->
  fold_left (fun sum score => JS.plus sum score)
    (map weigh (Mention.posts_of_records records)) n
  = fold_left (fun sum score => JS.plus sum score) (map weigh (texts_found records)) n.
Proof.
  intros Hempty. revert n. induction records as [|record rest IH]; intros n Hn; [reflexivity|].
  unfold Mention.posts_of_records in *. cbn [map fold_left].
  assert (Hskip : fold_left (fun sum score => JS.plus sum score)
                    (map weigh (map Mention.post_text rest)) (JS.plus n (weigh ""))
                  = fold_left (fun sum score => JS.plus sum score)
                      (map weigh (texts_found rest)) n).
  { rewrite (plus_nothing n _ Hn Hempty). apply IH. exact Hn. }
  destruct record as [| | | | |fields]; cbn [Mention.post_text texts_found]; try exact Hskip.
  destruct (Mention.has_key "text" fields) eqn:Hkey.
  - destruct (Mention.get "text" fields) as [[| | |text| |]|]; try exact Hskip.
    cbn [map fold_left]. apply IH. apply plus_settled. exact Hn.
  - rewrite (get_without_key _ _ Hkey). exact Hskip.
Qed.

(** X22: the handler turns every record into a post, the text of a record
    that is an object with a string [text] and the empty string for any
    other record; so when the empty string has comparative value 0 the
    score is the sum over the texts found, added in their order, divided
    by the number of all records: a record without a text adds nothing to
    the sum, not even a rounding, and counts in the divisor. *)
Theorem records_without_text_dilute (Options : Type)
  (comparative : string -> option Options -> Q) (records : list Mention.json) :
  comparative "" None == 0 ->
  records <> [] ->
  List.length (Mention.posts_of_records records) = List.length records
  /\ Score.analyzeSentimentScore Options comparative (Mention.posts_of_records records) None
     = JS.over (fold_left (fun sum score => JS.plus sum score)
                  (map (fun text => comparative text None) (texts_found records))
                  (JS.Num 0))
         (List.length records).
Proof.
  intros Hempty Hne.
  assert (Hlen : List.length (Mention.posts_of_records records) = List.length records)
    by apply length_map.
  split; [exact Hlen|].
  unfold Score.analyzeSentimentScore.
  rewrite nonempty_length_test by (destruct records; [congruence | discriminate]).
  rewrite Hlen.
  rewrite (reduce_skips_blank (fun text => comparative text None) records (JS.Num 0)
             Hempty zero_settled).
  reflexivity.
Qed.

Lemma records_without_text_dilute_witness :
  (fun text (_ : option unit) => if String.eqb text "" then 0 else 1) "" None == 0
  /\ [ Mention.JObject [("text", Mention.JString "great")]; Mention.JNull;
       Mention.JObject [("text", Mention.JNumber 3)]; Mention.JArray [] ] <> []
  /\ Score.analyzeSentimentScore unit
       (fun text _ => if String.eqb text "" then 0 else 1)
       (Mention.posts_of_records
          [ Mention.JObject [("text", Mention.JString "great")]; Mention.JNull;
            Mention.JObject [("text", Mention.JNumber 3)]; Mention.JArray [] ])
       None
     = JS.over (fold_left (fun sum score => JS.plus sum score)
                  (map (fun text => if String.eqb text "" then 0 else 1)
                     (texts_found
                        [ Mention.JObject [("text", Mention.JString "great")]; Mention.JNull;
                          Mention.JObject [("text", Mention.JNumber 3)]; Mention.JArray [] ]))
                  (JS.Num 0))
         4
  /\ JS.over (fold_left (fun sum score => JS.plus sum score)
                (map (fun text => if String.eqb text "" then 0 else 1)
                   (texts_found
                      [ Mention.JObject [("text", Mention.JString "great")]; Mention.JNull;
                        Mention.JObject [("text", Mention.JNumber 3)]; Mention.JArray [] ]))
                (JS.Num 0))
       4
     = JS.Num (1 # 4).
Proof.
  assert (H1 : (fun text (_ : option unit) => if String.eqb text "" then 0 else 1) "" None == 0)
    by reflexivity.
  assert (H2 : [ Mention.JObject [("text", Mention.JString "great")]; Mention.JNull;
                 Mention.JObject [("text", Mention.JNumber 3)]; Mention.JArray [] ] <> [])
    by discriminate.
  split; [exact H1|]. split; [exact H2|].
  split; [|vm_compute; reflexivity].
  exact (proj2 (records_without_text_dilute unit
                  (fun text _ => if String.eqb text "" then 0 else 1)
                  [ Mention.JObject [("text", Mention.JString "great")]; Mention.JNull;
                    Mention.JObject [("text", Mention.JNumber 3)]; Mention.JArray [] ]
                  H1 H2)).
Defined.

(** ** The score in the latest reply *)

(** X23: the latest composer shows every score of magnitude below 10^21
    with a point and exactly two decimals, the hundredths nearest to its
    magnitude with a half going away from 0, and a minus sign for every
    negative score, also one that rounds to zero. *)
Theorem latest_score_has_two_decimals (NumberToString : Q -> string) (score : Q) :
  Qabs score < inject_Z (10 ^ 21) ->
  JS.toFixed NumberToString score 2
  = (if JS.lt score 0 then "-" else "") ++ two_decimals (hundredths (Qabs score))
    /\ (-0.005 < score /\ score < 0 -> JS.toFixed NumberToString score 2 = "-0.00").
Proof.
  intros Hbig.
  assert (Hshape : JS.toFixed NumberToString score 2
                   = (if JS.lt score 0 then "-" else "")
                     ++ two_decimals (hundredths (Qabs score))).
  { destruct (JS.lt score 0) eqn:Hneg; tests_to_orders.
    - assert (Habs : Qabs score == - score) by (apply Qabs_neg; lra).
      rewrite (hundredths_comp _ _ Habs). rewrite Habs in Hbig.
      apply toFixed_neg; assumption.
    - assert (Habs : Qabs score == score) by (apply Qabs_pos; exact Hneg).
      rewrite (hundredths_comp _ _ Habs). rewrite Habs in Hbig.
      apply toFixed_nonneg; assumption. }
  split; [exact Hshape|].
  intros [Hlo Hhi]. rewrite Hshape.
  assert (Hneg : JS.lt score 0 = true) by (apply lt_true; exact Hhi).
  assert (Habs : Qabs score == - score) by (apply Qabs_neg; lra).
  rewrite Hneg, (hundredths_comp _ _ Habs). unfold hundredths.
  rewrite floor_of_unit by lra. reflexivity.
Qed.

Lemma latest_score_has_two_decimals_witness :
  Qabs (-0.001) < inject_Z (10 ^ 21)
  /\ (-0.005 < -0.001 /\ -0.001 < 0)
  /\ JS.toFixed unreached (-0.001) 2 = "-0.00".
Proof.
  assert (H1 : Qabs (-0.001) < inject_Z (10 ^ 21)) by reflexivity.
  assert (H2 : -0.005 < -0.001 /\ -0.001 < 0) by (split; reflexivity).
  split; [exact H1|]. split; [exact H2|].
  exact (proj2 (latest_score_has_two_decimals unreached (-0.001) H1) H2).
Defined.

(** ** Witnesses of the equivalences *)

Lemma latest_agrees_with_table_witness :
  ((2 <= -0.1 \/ 2 == 0 \/ 0.1 < 2)
   /\ Latest.analyzeSentiment 2 = Nine.analyzeSentiment 2)
  /\ ((-0.1 < -0.05 /\ -0.05 < 0)
      /\ Nine.analyzeSentiment (-0.05) = "neutral"
      /\ Latest.analyzeSentiment (-0.05) = "slightly negative")
  /\ ((0 < 0.1 /\ 0.1 <= 0.1)
      /\ Nine.analyzeSentiment 0.1 = "neutral"
      /\ Latest.analyzeSentiment 0.1 = "slightly positive").
Proof.
  assert (H : 2 <= -0.1 \/ 2 == 0 \/ 0.1 < 2) by (right; right; reflexivity).
  assert (Hneg : -0.1 < -0.05 /\ -0.05 < 0) by (split; reflexivity).
  assert (Hpos : 0 < 0.1 /\ 0.1 <= 0.1) by (split; [reflexivity | discriminate]).
  split; [split; [exact H | exact (proj2 (proj1 (latest_agrees_with_table 2)) H)]|].
  split.
  - split; [exact Hneg|].
    exact (proj1 (proj2 (latest_agrees_with_table (-0.05))) Hneg).
  - split; [exact Hpos|].
    exact (proj2 (proj2 (latest_agrees_with_table 0.1)) Hpos).
Defined.

Lemma nine_emoji_follows_category_witness :
  Nine.analyzeSentiment 0.2 = Nine.analyzeSentiment 0.4
  /\ Nine.getSentimentEmoji 0.2 = Nine.getSentimentEmoji 0.4.
Proof.
  assert (H : Nine.analyzeSentiment 0.2 = Nine.analyzeSentiment 0.4) by reflexivity.
  split; [exact H|]. exact (proj2 (nine_emoji_follows_category 0.2 0.4) H).
Defined.

Lemma five_way_reply_defined_witness :
  (~ In "positive" five_labels /\ ~ In "positive" JS.Object_prototype
   /\ Index1.generateSentimentResponse unreached "bob" "positive" 100 = None)
  /\ (In "valueOf" JS.Object_prototype
      /\ Index1.generateSentimentResponse unreached "bob" "valueOf" 100
         = Some "undefined Hey @bob! undefined undefined").
Proof.
  assert (H : ~ In "positive" five_labels).
  { unfold five_labels. cbn [In]. intros [H|[H|[H|[H|[H|[]]]]]]; discriminate H. }
  assert (H' : ~ In "positive" JS.Object_prototype).
  { unfold JS.Object_prototype. cbn [In].
    intros Hin. repeat (destruct Hin as [Hin|Hin]; [discriminate Hin|]). exact Hin. }
  assert (Hv : In "valueOf" JS.Object_prototype).
  { unfold JS.Object_prototype. cbn [In]. tauto. }
  split.
  - split; [exact H|]. split; [exact H'|].
    exact (proj2 (proj1 (five_way_reply_defined unreached "bob" 100) "positive")
             (conj H H')).
  - split; [exact Hv|].
    exact (proj1 (proj2 (five_way_reply_defined unreached "bob" 100)) "valueOf" Hv).
Defined.

